(** * SECOORA assets map: GeoJSON / shapefile feature builders

    A shallow embedding of the three scripts of the repository

    - [data_frame2gis.py]   ([parse_hfradar], [parse_stations], [save_shapefile]),
    - [hfradar_geojson.py]  ([df2features], [save_shapefile]),
    - [stations_geojson.py] ([df2features], [save_shapefile]),

    together with the properties of the feature collections they build.

    Conventions of the embedding.
    - Python exceptions are the constructors of [exn]; a computation that may
      raise returns a [result].
    - Python [float]s are IEEE binary64 numbers, i.e. Rocq's primitive floats.
    - Python [dict]s with string keys are [gmap string _].
    - A [pandas.DataFrame] is the list of its rows in file order, each row
      paired with its index label.  A cell of a key column ([Status],
      [PlatformType]) holds a label or is blank; the [MHz] cell holds whatever
      the sheet has there: a whole number, a float (not-a-number when the
      cell is blank) or a text.
    - The third-party constructor [matplotlib.patches.Wedge] is a parameter of
      the development: it either yields a patch or raises.  So are the two
      functions of the Python runtime that are not computed here: the text
      of a float and the integer that a text denotes. *)

From Stdlib Require Import PrimFloat Uint63 ZArith FloatOps SpecFloat.
From stdpp Require Import gmap strings list sorting pretty.

Local Open Scope Z_scope.

(** ** Exceptions and results *)

Inductive exn : Set :=
  | KeyError
  | ValueError
  | IndexError
  | OverflowError
  | UnboundLocalError.

Inductive result (A : Type) : Type :=
  | Ok (a : A)
  | Raise (e : exn).

Arguments Ok {A} a.
Arguments Raise {A} e.

Global Instance result_ret : MRet result := λ A a, Ok a.
Global Instance result_bind : MBind result := λ A B f m,
  match m with
  | Ok a => f a
  | Raise e => Raise e
  end.
Global Instance result_fmap : FMap result := λ A B f m,
  match m with
  | Ok a => Ok (f a)
  | Raise e => Raise e
  end.


(** [d[k]] on a dictionary: [KeyError] when the key is absent. *)
Definition getitem `{Lookup K V M} (d : M) (k : K) : result V :=
  match d !! k with
  | Some v => Ok v
  | None => Raise KeyError
  end.

(** A [for] loop whose body may raise, threading the loop's variables. *)
Fixpoint for_each {A S : Type} (body : S → A → result S) (s : S) (l : list A)
    : result S :=
  match l with
  | [] => Ok s
  | x :: l' => s' ← body s x; for_each body s' l'
  end.

(** [enumerate(l)]. *)
Definition enumerate {A : Type} (l : list A) : list (Z * A) :=
  imap (λ k x, (Z.of_nat k, x)) l.

(** ** Values, geometries and features *)

Definition float_of_int (z : Z) : float := PrimFloat.of_uint63 (Uint63.of_Z z).

(** A scalar stored in a property bag or used as an index label. *)
Inductive value : Set :=
  | VStr (s : string)
  | VInt (n : Z)
  | VFloat (x : float).

(** [str(n)] for an integer: its decimal writing. *)
Definition str_int (n : Z) : string := pretty n.

(** The Python runtime: [str(x)] for a float [x], and [int(s)] for a text
    [s], which is [None] when [int] raises [ValueError]. *)
Record Python : Type := mkPython {
  str_float : float → string;
  int_str : string → option Z;
}.

(** [int(x)] for a float: the whole part of [x] (rounding towards zero);
    [ValueError] for not-a-number and [OverflowError] for an infinity. *)
Definition int_float (x : float) : result Z :=
  match Prim2SF x with
  | S754_zero _ => Ok 0
  | S754_finite s m e =>
      let a := Z.shiftl (Z.pos m) e in Ok (if s then - a else a)
  | S754_infinity _ => Raise OverflowError
  | S754_nan => Raise ValueError
  end.

(** [int(v)] for the content of a cell. *)
Definition int_cell (py : Python) (v : value) : result Z :=
  match v with
  | VInt n => Ok n
  | VFloat x => int_float x
  | VStr s =>
      match int_str py s with
      | Some n => Ok n
      | None => Raise ValueError
      end
  end.

(** The text that ["{}".format(v)] gives for the content of a cell. *)
Definition str_cell (py : Python) (v : value) : string :=
  match v with
  | VInt n => str_int n
  | VFloat x => str_float py x
  | VStr s => s
  end.

(** A position is the list of its ordinates, [[x, y]]. *)
Definition position : Set := list float.

(** [geojson.Point] and [geojson.Polygon]: the constructors store the
    coordinates they are given. *)
Inductive geometry : Set :=
  | Point (coordinates : position)
  | Polygon (coordinates : list (list position)).

(** [g["type"]]. *)
Definition geometry_type (g : geometry) : string :=
  match g with
  | Point _ => "Point"
  | Polygon _ => "Polygon"
  end.

Record Feature : Type := mkFeature {
  geometry_of : geometry;
  properties : gmap string value;
}.

Record FeatureCollection : Type := mkFeatureCollection {
  features : list Feature;
}.

(** ** The fixed tables *)

Definition url : string :=
  "https://raw.githubusercontent.com/ocefpaf/" +:+
  "secoora_assets_map/gh-pages/secoora_icons/".

Definition status_colors : gmap string string :=
  <["Planned" := "orange"]> (
  <["Operational" := "green"]> (
  <["Permitting" := "yellow"]> (
  <["Construction" := "yellow"]> ∅))).

(** The radius of a radar's range in kilometres, by frequency band. *)
Definition ranges : gmap Z Z :=
  <[5 := 190]> (<[8 := 160]> (<[12 := 130]> (<[16 := 100]> ∅))).

(** ** Tables *)

(** A row of the radar sheet.  The [Status] cell is [None] when it is blank
    (pandas reads not-a-number there); the [MHz] cell is kept as it is read. *)
Module Radar.
Record Row : Set := mkRow {
  DisplayTitle : string;
  Status : option string;
  MHz : value;
  StartAngle : float;
  SpreadAngle : float;
  Longitude : float;
  Latitude : float;
}.
End Radar.

(** A row of the stations sheet; a blank key cell is [None]. *)
Module Station.
Record Row : Set := mkRow {
  PlatformType : option string;
  Status : option string;
  Name : string;
  LocationDescription : string;
  Longitude : float;
  Latitude : float;
}.
End Station.

(** A data frame: the rows in file order, each with its index label. *)
Abbreviation DataFrame Row := (list (value * Row)).

(** ** The order of grouping keys

    [DataFrame.groupby] visits the groups in the sorted order of their keys:
    Python's order on [str] (lexicographic on the characters) for one key
    column, and the lexicographic order on tuples for a list of columns. *)

Class KeyOrder (K : Type) `{EqDecision K} : Type := {
  key_leb : K → K → bool;
  key_leb_total : ∀ x y, key_leb x y = true ∨ key_leb y x = true;
  key_leb_trans : ∀ x y z,
    key_leb x y = true → key_leb y z = true → key_leb x z = true;
  key_leb_antisym : ∀ x y,
    key_leb x y = true → key_leb y x = true → x = y;
}.

Definition key_le `{KeyOrder K} : relation K := λ x y, key_leb x y = true.

Global Instance key_le_dec `{KeyOrder K} (x y : K) : Decision (key_le x y).
Proof. unfold key_le. apply _. Defined.

Global Instance key_le_total `{KeyOrder K} : Total (key_le (K:=K)).
Proof. intros x y. apply key_leb_total. Qed.

Global Instance key_le_trans `{KeyOrder K} : Transitive (key_le (K:=K)).
Proof. intros x y z. apply key_leb_trans. Qed.

Global Instance key_le_antisym `{KeyOrder K} : AntiSymm (=) (key_le (K:=K)).
Proof. intros x y. apply key_leb_antisym. Qed.

Lemma key_le_refl `{KeyOrder K} (x : K) : key_le x x.
Proof. by destruct (key_leb_total x x). Qed.

Lemma ascii_compare_trans (c : comparison) (a1 a2 a3 : Ascii.ascii) :
  Ascii.compare a1 a2 = c → Ascii.compare a2 a3 = c → Ascii.compare a1 a3 = c.
Proof.
  unfold Ascii.compare. destruct c; intros H12 H23.
  - apply N.compare_eq_iff in H12. apply N.compare_eq_iff in H23.
    rewrite H12, H23. apply N.compare_refl.
  - apply N.compare_lt_iff in H12. apply N.compare_lt_iff in H23.
    apply N.compare_lt_iff. by apply N.lt_trans with (Ascii.N_of_ascii a2).
  - apply N.compare_gt_iff in H12. apply N.compare_gt_iff in H23.
    apply N.compare_gt_iff. by apply N.lt_trans with (Ascii.N_of_ascii a2).
Qed.

Lemma string_compare_trans (c : comparison) (s1 s2 s3 : string) :
  String.compare s1 s2 = c → String.compare s2 s3 = c → String.compare s1 s3 = c.
Proof.
  revert s2 s3. induction s1 as [|a1 s1 IH]; intros [|a2 s2] [|a3 s3]; simpl;
    try congruence.
  destruct (Ascii.compare a1 a2) eqn:E12, (Ascii.compare a2 a3) eqn:E23;
    try congruence.
  - rewrite (ascii_compare_trans Eq a1 a2 a3) by done. apply IH.
  - apply Ascii.compare_eq_iff in E12 as ->. by rewrite E23.
  - apply Ascii.compare_eq_iff in E12 as ->. by rewrite E23.
  - apply Ascii.compare_eq_iff in E23 as ->. by rewrite E12.
  - by rewrite (ascii_compare_trans Lt a1 a2 a3).
  - apply Ascii.compare_eq_iff in E23 as ->. by rewrite E12.
  - by rewrite (ascii_compare_trans Gt a1 a2 a3).
Qed.

Lemma string_leb_trans (s1 s2 s3 : string) :
  String.leb s1 s2 = true → String.leb s2 s3 = true → String.leb s1 s3 = true.
Proof.
  unfold String.leb.
  destruct (String.compare s1 s2) eqn:E12; [| |done];
    destruct (String.compare s2 s3) eqn:E23; try done; intros _ _.
  - by rewrite (string_compare_trans Eq s1 s2 s3).
  - apply String.compare_eq_iff in E12 as ->. by rewrite E23.
  - apply String.compare_eq_iff in E23 as ->. by rewrite E12.
  - by rewrite (string_compare_trans Lt s1 s2 s3).
Qed.

(** One key column of strings. *)
Global Program Instance string_key_order : KeyOrder string := {|
  key_leb := String.leb;
|}.
Next Obligation. intros. apply String.leb_total. Qed.
Next Obligation. intros x y z. apply string_leb_trans. Qed.
Next Obligation. intros x y. apply String.leb_antisym. Qed.

(** Two key columns: tuples compare by their first components, then by their
    second components. *)
Definition pair_leb `{KeyOrder A, KeyOrder B} (p q : A * B) : bool :=
  if decide (p.1 = q.1) then key_leb p.2 q.2 else key_leb p.1 q.1.

Lemma pair_leb_total `{KeyOrder A, KeyOrder B} (p q : A * B) :
  pair_leb p q = true ∨ pair_leb q p = true.
Proof.
  destruct p as [a1 b1], q as [a2 b2]. unfold pair_leb; simpl.
  destruct (decide (a1 = a2)) as [->|Hne].
  - rewrite decide_True by done. apply key_leb_total.
  - rewrite decide_False by congruence. apply key_leb_total.
Qed.

Lemma pair_leb_antisym `{KeyOrder A, KeyOrder B} (p q : A * B) :
  pair_leb p q = true → pair_leb q p = true → p = q.
Proof.
  destruct p as [a1 b1], q as [a2 b2]. unfold pair_leb; simpl.
  destruct (decide (a1 = a2)) as [->|Hne].
  - rewrite decide_True by done. intros H12 H21.
    by rewrite (key_leb_antisym _ _ H12 H21).
  - rewrite decide_False by congruence. intros H12 H21.
    by destruct (Hne (key_leb_antisym _ _ H12 H21)).
Qed.

Lemma pair_leb_trans `{KeyOrder A, KeyOrder B} (p q r : A * B) :
  pair_leb p q = true → pair_leb q r = true → pair_leb p r = true.
Proof.
  destruct p as [a1 b1], q as [a2 b2], r as [a3 b3]. unfold pair_leb; simpl.
  destruct (decide (a1 = a2)) as [->|Hne12];
    destruct (decide (a2 = a3)) as [->|Hne23].
  - apply key_leb_trans.
  - done.
  - rewrite decide_False by done. done.
  - intros H12 H23. destruct (decide (a1 = a3)) as [->|Hne13].
    + by destruct (Hne12 (key_leb_antisym _ _ H12 H23)).
    + by apply key_leb_trans with a2.
Qed.

Global Instance pair_key_order `{KeyOrder A, KeyOrder B} : KeyOrder (A * B) := {|
  key_leb := pair_leb;
  key_leb_total := pair_leb_total;
  key_leb_trans := pair_leb_trans;
  key_leb_antisym := pair_leb_antisym;
|}.

(** ** [DataFrame.groupby]

    The groups are keyed by the distinct values of the key columns, come in
    the sorted order of the keys, and each keeps its rows in the order of the
    frame.  The key of a row is [None] when one of its key cells is blank:
    such a row belongs to no group. *)

Section groupby.
Context {K Row : Type} `{KeyOrder K}.

Definition group_keys (key : Row → option K) (df : DataFrame Row) : list K :=
  merge_sort key_le (remove_dups (omap (λ nr, key nr.2) df)).

Definition groupby (key : Row → option K) (df : DataFrame Row)
    : list (K * DataFrame Row) :=
  (λ k, (k, filter (λ nr, key nr.2 = Some k) df)) <$> group_keys key df.

(** The rows in the order in which the nested loops visit them. *)
Definition visit_order (key : Row → option K) (df : DataFrame Row)
    : DataFrame Row :=
  concat (snd <$> groupby key df).

(** The rows of the frame that have a key, in the order of the frame. *)
Definition keyed (key : Row → option K) (df : DataFrame Row) : DataFrame Row :=
  filter (λ nr, is_Some (key nr.2)) df.

End groupby.

(** ** Python lists *)

(** [l[i]] with Python's negative indices; [IndexError] out of range. *)
Definition list_getitem {A : Type} (l : list A) (i : Z) : result A :=
  let n := Z.of_nat (length l) in
  let j := if decide (i < 0) then n + i else i in
  if decide (0 ≤ j < n) then
    match l !! Z.to_nat j with
    | Some x => Ok x
    | None => Raise IndexError
    end
  else Raise IndexError.

(** ** matplotlib

    A patch is known by the vertices of its path,
    [patch.get_path().vertices.tolist()].  The constructor
    [Wedge(center, r, theta1, theta2)] is a parameter [WedgeCtor]; it raises
    (a [ValueError], for angles that are not numbers) or returns a patch. *)

Record Patch : Set := mkPatch {
  path_vertices : list position;
}.

Definition WedgeCtor : Type :=
  float * float → float → float → float → result Patch.

(** ** Shapefiles written through fiona

    A collection opened for writing holds its schema and the records written
    so far.  [write] refuses ([ValueError]) a record whose geometry is not of
    the schema's type. *)

Record shape_record : Type := mkRecord {
  record_geometry : geometry;
  record_name : value;
}.

Record Collection : Type := mkCollection {
  schema_geometry : string;
  schema_properties : list (string * string);
  records : list shape_record;
}.

Definition fiona_open (schema_geometry : string)
    (schema_properties : list (string * string)) : Collection :=
  mkCollection schema_geometry schema_properties [].

Definition write (f : Collection) (r : shape_record) : result Collection :=
  if decide (geometry_type (record_geometry r) = schema_geometry f) then
    Ok (mkCollection (schema_geometry f) (schema_properties f)
          (records f ++ [r]))
  else Raise ValueError.

(** The styling defaults of a coverage polygon, overridden by the caller's
    keyword arguments: [defaults = dict(...); defaults.update(kw)]. *)
Definition polygon_defaults (kw : gmap string value) : gmap string value :=
  kw ∪ (<["stroke" := VStr "#aeccae"]> (
        <["stroke_width" := VInt 1]> (
        <["stroke_opacity" := VFloat 0.5]> (
        <["fill" := VStr "#deffde"]> (
        <["fill_opacity" := VFloat 0.25]> ∅))))).

(** The variables of the two nested loops of the radar builders.  [polygon]
    is a local that the first successful wedge binds; until then it is
    unbound ([None]). *)
Record radar_locals : Type := mkLocals {
  polygon : option geometry;
  points : list Feature;
  polygons : list Feature;
}.

Set Warnings "-inexact-float".


(** * data_frame2gis.py *)

Module data_frame2gis.

Definition platforms_icons : gmap string string :=
  <["Fixed Surface Buoy" := "buoy"]> (
  <["Fixed Bottom Station" := "circ"]> (
  <["Fixed Bottom Mount Mooring" := "tri"]> (
  <["Fixed Coastal Station" := "shore_station"]> (
  <["HFRadar" := "hfradar"]> ∅)))).

(** [icon = (url + "{platform}-{status}.png").format] *)
Definition icon (platform status : string) : string :=
  url +:+ platform +:+ "-" +:+ status +:+ ".png".

(** [vertices[-2]] raises [IndexError] on a path of fewer than two
    vertices. *)
Definition mpl_patch2geo_polygon (patch : Patch) : result geometry :=
  let vertices := path_vertices patch in
  v ← list_getitem vertices (-2);
  Ok (Polygon [vertices ++ [v]]).

Section hfradar.
Variable py : Python.
Variable Wedge : WedgeCtor.

(** The outcome [Ok None] is the [None] returned when [Wedge] raised
    [ValueError]; the conversion of the [MHz] cell and the lookup of the
    range stand before the [try]. *)
Definition wedge (radar : Radar.Row) : result (option Patch) :=
  band ← int_cell py (Radar.MHz radar);
  km ← getitem ranges band;
  let r := (float_of_int km / 111.1)%float in
  let '(theta1, theta2) := (Radar.StartAngle radar, Radar.SpreadAngle radar) in
  let center := (Radar.Longitude radar, Radar.Latitude radar) in
  match Wedge center r (theta1 + theta2)%float theta1 with
  | Ok patch => Ok (Some patch)
  | Raise ValueError => Ok None
  | Raise e => Raise e
  end.

(** The body of the inner loop, [for name, row in group.iterrows()].  The
    test [if patch:] rebinds [polygon] when a patch was built; the two
    [append]s follow it for every row, and reading an unbound [polygon]
    raises [UnboundLocalError]. *)
Definition hfradar_row (defaults : gmap string value) (color : string)
    (st : radar_locals) (nr : value * Radar.Row) : result radar_locals :=
  let '(name, row) := nr in
  let popupContent :=
    Radar.DisplayTitle row +:+ " (" +:+ str_cell py (Radar.MHz row)
    +:+ " MHz)" in
  let properties : gmap string value :=
    <["icon" := VStr (icon "hfradar" color)]> (
    <["name" := name]> (
    <["popupContent" := VStr popupContent]> ∅)) in
  patch ← wedge row;
  polygon' ← match patch with
             | Some p => Some <$> mpl_patch2geo_polygon p
             | None => Ok (polygon st)
             end;
  let point := Point [Radar.Longitude row; Radar.Latitude row] in
  let points' := points st ++ [mkFeature point properties] in
  match polygon' with
  | Some g =>
      Ok (mkLocals polygon' points' (polygons st ++ [mkFeature g defaults]))
  | None => Raise UnboundLocalError
  end.

(** The body of the outer loop, [for status, group in df.groupby("Status")]. *)
Definition hfradar_group (defaults : gmap string value)
    (st : radar_locals) (g : string * DataFrame Radar.Row)
    : result radar_locals :=
  let '(status, group) := g in
  color ← getitem status_colors status;
  for_each (hfradar_row defaults color) st group.

Definition parse_hfradar (df : DataFrame Radar.Row) (kw : gmap string value)
    : result FeatureCollection :=
  let defaults := polygon_defaults kw in
  st ← for_each (hfradar_group defaults) (mkLocals None [] [])
         (groupby Radar.Status df);
  Ok (mkFeatureCollection (points st ++ polygons st)).

End hfradar.

(** The body of the inner loop of [parse_stations]. *)
Definition stations_row (color platform : string)
    (features : list Feature) (nr : value * Station.Row)
    : result (list Feature) :=
  let '(name, row) := nr in
  let properties : gmap string value :=
    <["icon" := VStr (icon platform color)]> (
    <["name" := VStr (Station.Name row)]> (
    <["popupContent" := VStr (Station.LocationDescription row)]> ∅)) in
  let geometry := Point [Station.Longitude row; Station.Latitude row] in
  let feature := mkFeature geometry properties in
  Ok (features ++ [feature]).

(** The body of the outer loop,
    [for (platformtype, status), group in df.groupby(["PlatformType", "Status"])];
    a row has a key when both cells hold a label. *)
Definition stations_group (features : list Feature)
    (g : (string * string) * DataFrame Station.Row) : result (list Feature) :=
  let '((platformtype, status), group) := g in
  color ← getitem status_colors status;
  platform ← getitem platforms_icons platformtype;
  for_each (stations_row color platform) features group.

Definition parse_stations (df : DataFrame Station.Row)
    : result FeatureCollection :=
  features ← for_each stations_group []
    (groupby (λ row, platformtype ← Station.PlatformType row;
                     status ← Station.Status row;
                     Some (platformtype, status)) df);
  Ok (mkFeatureCollection features).

(** The body of the loop of [save_shapefile],
    [for k, feature in enumerate(geojson["features"])]: a [KeyError] on the
    name is caught and the position [k] taken instead. *)
Definition save_feature (geometry : string) (f : Collection)
    (kf : Z * Feature) : result Collection :=
  let '(k, feature) := kf in
  if decide (geometry_type (geometry_of feature) = geometry) then
    let name := match properties feature !! "name" with
                | Some v => v
                | None => VInt k
                end in
    write f (mkRecord (geometry_of feature) name)
  else Ok f.

Definition save_shapefile (geojson : FeatureCollection) (geometry : string)
    : result Collection :=
  let f := fiona_open geometry [("name", "str:80")] in
  for_each (save_feature geometry) f (enumerate (features geojson)).

End data_frame2gis.

(** * hfradar_geojson.py *)

Module hfradar_geojson.

(** [icon = (url + 'hfradar-{status}.png').format] *)
Definition icon (status : string) : string :=
  url +:+ "hfradar-" +:+ status +:+ ".png".

Definition mpl_patch2geo_polygon (patch : Patch) : result geometry :=
  let vertices := path_vertices patch in
  v ← list_getitem vertices (-2);
  Ok (Polygon [vertices ++ [v]]).

Section hfradar.
Variable py : Python.
Variable Wedge : WedgeCtor.

Definition wedge (radar : Radar.Row) : result (option Patch) :=
  band ← int_cell py (Radar.MHz radar);
  km ← getitem ranges band;
  let r := (float_of_int km / 111.1)%float in
  let '(theta1, theta2) := (Radar.StartAngle radar, Radar.SpreadAngle radar) in
  let center := (Radar.Longitude radar, Radar.Latitude radar) in
  match Wedge center r (theta1 + theta2)%float theta1 with
  | Ok patch => Ok (Some patch)
  | Raise ValueError => Ok None
  | Raise e => Raise e
  end.

(** The body of the inner loop of [df2features]. *)
Definition df2features_row (defaults : gmap string value) (color : string)
    (st : radar_locals) (nr : value * Radar.Row) : result radar_locals :=
  let '(name, row) := nr in
  let popupContent :=
    Radar.DisplayTitle row +:+ " (" +:+ str_cell py (Radar.MHz row)
    +:+ " MHz)" in
  let properties : gmap string value :=
    <["icon" := VStr (icon color)]> (
    <["name" := name]> (
    <["popupContent" := VStr popupContent]> ∅)) in
  patch ← wedge row;
  polygon' ← match patch with
             | Some p => Some <$> mpl_patch2geo_polygon p
             | None => Ok (polygon st)
             end;
  let point := Point [Radar.Longitude row; Radar.Latitude row] in
  let points' := points st ++ [mkFeature point properties] in
  match polygon' with
  | Some g =>
      Ok (mkLocals polygon' points' (polygons st ++ [mkFeature g defaults]))
  | None => Raise UnboundLocalError
  end.

Definition df2features_group (defaults : gmap string value)
    (st : radar_locals) (g : string * DataFrame Radar.Row)
    : result radar_locals :=
  let '(status, group) := g in
  color ← getitem status_colors status;
  for_each (df2features_row defaults color) st group.

Definition df2features (df : DataFrame Radar.Row) (kw : gmap string value)
    : result FeatureCollection :=
  let defaults := polygon_defaults kw in
  st ← for_each (df2features_group defaults) (mkLocals None [] [])
         (groupby Radar.Status df);
  Ok (mkFeatureCollection (points st ++ polygons st)).

End hfradar.

Definition save_feature (geometry : string) (f : Collection)
    (kf : Z * Feature) : result Collection :=
  let '(k, feature) := kf in
  if decide (geometry_type (geometry_of feature) = geometry) then
    let name := match properties feature !! "name" with
                | Some v => v
                | None => VInt k
                end in
    write f (mkRecord (geometry_of feature) name)
  else Ok f.

Definition save_shapefile (geojson : FeatureCollection) (geometry : string)
    : result Collection :=
  let f := fiona_open geometry [("name", "str:80")] in
  for_each (save_feature geometry) f (enumerate (features geojson)).

End hfradar_geojson.

(** * stations_geojson.py *)

Module stations_geojson.

Definition platforms_icons : gmap string string :=
  <["Fixed Surface Buoy" := "buoy"]> (
  <["Fixed Bottom Station" := "circ"]> (
  <["Fixed Bottom Mount Mooring" := "tri"]> (
  <["Fixed Coastal Station" := "shore_station"]> ∅))).

(** [icon = (url + '{platform}-{status}.png').format] *)
Definition icon (platform status : string) : string :=
  url +:+ platform +:+ "-" +:+ status +:+ ".png".

(** The body of the inner loop of [df2features]. *)
Definition df2features_row (color platform : string)
    (features : list Feature) (nr : value * Station.Row)
    : result (list Feature) :=
  let '(name, row) := nr in
  let properties : gmap string value :=
    <["icon" := VStr (icon platform color)]> (
    <["name" := VStr (Station.Name row)]> (
    <["popupContent" := VStr (Station.LocationDescription row)]> ∅)) in
  let geometry := Point [Station.Longitude row; Station.Latitude row] in
  let feature := mkFeature geometry properties in
  Ok (features ++ [feature]).

Definition df2features_group (features : list Feature)
    (g : (string * string) * DataFrame Station.Row) : result (list Feature) :=
  let '((platformtype, status), group) := g in
  color ← getitem status_colors status;
  platform ← getitem platforms_icons platformtype;
  for_each (df2features_row color platform) features group.

Definition df2features (df : DataFrame Station.Row)
    : result FeatureCollection :=
  features ← for_each df2features_group []
    (groupby (λ row, platformtype ← Station.PlatformType row;
                     status ← Station.Status row;
                     Some (platformtype, status)) df);
  Ok (mkFeatureCollection features).

(** The body of the loop of [save_shapefile], [for feature in
    geojson['features']]: every feature is written, and its name is looked
    up without a fallback. *)
Definition save_feature (f : Collection) (feature : Feature)
    : result Collection :=
  name ← getitem (properties feature) "name";
  write f (mkRecord (geometry_of feature) name).

Definition save_shapefile (geojson : FeatureCollection) : result Collection :=
  let f := fiona_open "Point" [("name", "str:80")] in
  for_each save_feature f (features geojson).

End stations_geojson.

(** * Vocabulary of the statements *)

(** The recognised status labels and frequency bands, as lists. *)
Definition statuses : list string :=
  ["Planned"; "Operational"; "Permitting"; "Construction"].


(** The number of characters a [str:80] field of a shapefile holds.  A text
    fits when it is no longer; the text of an integer label is its decimal
    writing and the text of a float has at most 24 characters. *)
Definition fits_str80 (name : value) : Prop :=
  match name with
  | VStr s => (String.length s ≤ 80)%nat
  | VInt n => (String.length (str_int n) ≤ 80)%nat
  | VFloat _ => True
  end.

(** A key cell holds one of the listed statuses; a key cell holds a platform
    type of the icon table [icons]. *)
Definition status_listed (cell : option string) : Prop :=
  ∃ status, cell = Some status ∧ status ∈ statuses.

Definition platform_listed (icons : gmap string string) (cell : option string)
    : Prop :=
  ∃ platformtype, cell = Some platformtype ∧ is_Some (icons !! platformtype).


(** The point feature of a radar row whose status has the colour [color];
    the popup shows the [MHz] cell as it is. *)
Definition radar_point (py : Python) (color : string) (nr : value * Radar.Row)
    : Feature :=
  mkFeature (Point [Radar.Longitude nr.2; Radar.Latitude nr.2])
    (<["icon" := VStr (url +:+ "hfradar-" +:+ color +:+ ".png")]> (
     <["name" := nr.1]> (
     <["popupContent" :=
         VStr (Radar.DisplayTitle nr.2 +:+ " (" +:+
               str_cell py (Radar.MHz nr.2) +:+ " MHz)")]> ∅))).

(** The point feature of a station row of colour [color] and icon
    [platform]. *)
Definition station_point (color platform : string) (nr : value * Station.Row)
    : Feature :=
  mkFeature (Point [Station.Longitude nr.2; Station.Latitude nr.2])
    (<["icon" := VStr (url +:+ platform +:+ "-" +:+ color +:+ ".png")]> (
     <["name" := VStr (Station.Name nr.2)]> (
     <["popupContent" := VStr (Station.LocationDescription nr.2)]> ∅))).

(** The body of an outer loop over groups, which computes [outer] from the
    key of the group and runs [inner] over its rows; and the body of the
    single loop over rows that computes [outer] from the key of each row,
    and passes over a row that has no key. *)
Definition group_body {K A S C : Type} (outer : K → result C)
    (inner : C → S → A → result S) (s : S) (g : K * list A) : result S :=
  c ← outer g.1; for_each (inner c) s g.2.

Definition row_body {K A S C : Type} (key : A → option K)
    (outer : K → result C) (inner : C → S → A → result S) (s : S) (x : A)
    : result S :=
  match key x with
  | Some k => c ← outer k; inner c s x
  | None => Ok s
  end.

(** One step of the radar loops on the rows in visiting order: the colour of
    the row's status is looked up, then the row is processed. *)
Definition hfradar_step (py : Python) (Wedge : WedgeCtor)
    (defaults : gmap string value) (st : radar_locals)
    (nr : value * Radar.Row) : result radar_locals :=
  match Radar.Status nr.2 with
  | Some status =>
      color ← getitem status_colors status;
      data_frame2gis.hfradar_row py Wedge defaults color st nr
  | None => Ok st
  end.

(** A run of the radar loops over [rows], from a state in which the local
    [polygon] holds [prev]: the points and the polygons appended, and the
    final content of [polygon].  A row whose wedge is built contributes the
    polygon of that wedge; a row whose wedge is refused contributes the
    polygon the local still holds. *)
Inductive radar_run (py : Python) (Wedge : WedgeCtor)
    (defaults : gmap string value)
    : option geometry → list (value * Radar.Row) →
      list Feature → list Feature → option geometry → Prop :=
  | run_nil prev : radar_run py Wedge defaults prev [] [] [] prev
  | run_built prev nr rows status color p g pts pgs final :
      Radar.Status nr.2 = Some status →
      status_colors !! status = Some color →
      data_frame2gis.wedge py Wedge nr.2 = Ok (Some p) →
      data_frame2gis.mpl_patch2geo_polygon p = Ok g →
      radar_run py Wedge defaults (Some g) rows pts pgs final →
      radar_run py Wedge defaults prev (nr :: rows)
        (radar_point py color nr :: pts) (mkFeature g defaults :: pgs) final
  | run_repeat g nr rows status color pts pgs final :
      Radar.Status nr.2 = Some status →
      status_colors !! status = Some color →
      data_frame2gis.wedge py Wedge nr.2 = Ok None →
      radar_run py Wedge defaults (Some g) rows pts pgs final →
      radar_run py Wedge defaults (Some g) (nr :: rows)
        (radar_point py color nr :: pts) (mkFeature g defaults :: pgs) final.

(** The key of a station row: its platform type and its status, when both
    cells hold a label. *)
Definition station_key (row : Station.Row) : option (string * string) :=
  platformtype ← Station.PlatformType row;
  status ← Station.Status row;
  Some (platformtype, status).

(** The loops of [parse_stations] and of [df2features], over the icon table
    [icons] of either script. *)
Definition stations_features (icons : gmap string string)
    (df : DataFrame Station.Row) : result FeatureCollection :=
  features ← for_each (λ features (g : (string * string) * DataFrame Station.Row),
      let '((platformtype, status), group) := g in
      color ← getitem status_colors status;
      platform ← getitem icons platformtype;
      for_each (data_frame2gis.stations_row color platform) features group)
    [] (groupby station_key df);
  Ok (mkFeatureCollection features).

(** One step of the station loops on the rows in visiting order. *)
Definition station_step (icons : gmap string string)
    (features : list Feature) (nr : value * Station.Row)
    : result (list Feature) :=
  match station_key nr.2 with
  | Some (platformtype, status) =>
      color ← getitem status_colors status;
      platform ← getitem icons platformtype;
      data_frame2gis.stations_row color platform features nr
  | None => Ok features
  end.

(** [f] is the point of the station row [nr], whose status and platform type
    are listed. *)
Definition station_feature (icons : gmap string string)
    (nr : value * Station.Row) (f : Feature) : Prop :=
  ∃ platformtype status color platform,
    Station.PlatformType nr.2 = Some platformtype ∧
    Station.Status nr.2 = Some status ∧
    status_colors !! status = Some color ∧
    icons !! platformtype = Some platform ∧
    f = station_point color platform nr.

(** The record [save_shapefile] writes for the feature at position [k]. *)
Definition record_of (k : Z) (feature : Feature) : shape_record :=
  mkRecord (geometry_of feature)
    (default (VInt k) (properties feature !! "name")).

(** The features of a collection of one geometry type, with their positions. *)
Definition of_type (geometry : string) (fs : list Feature) : list (Z * Feature) :=
  filter (λ kf, geometry_type (geometry_of kf.2) = geometry) (enumerate fs).

(** The wedge of a row is built, and its path has a last vertex but one. *)
Definition wedge_built (py : Python) (Wedge : WedgeCtor) (row : Radar.Row)
    : Prop :=
  ∃ p v, data_frame2gis.wedge py Wedge row = Ok (Some p) ∧
         list_getitem (path_vertices p) (-2) = Ok v.

(** The number of features of one geometry type in a list. *)
Definition count_type (geometry : string) (fs : list Feature) : nat :=
  length (filter (λ f, geometry_type (geometry_of f) = geometry) fs).

(** The geometries of the features of a collection, in order. *)
Definition geometries (fc : FeatureCollection) : list geometry :=
  geometry_of <$> features fc.

(** The features [fs] are points, one for each row of the frame, at the
    coordinates [coords] of the row: they pair off with the rows taken in
    some order. *)
Definition point_per_row {Row : Type} (coords : Row → position)
    (df : DataFrame Row) (fs : list Feature) : Prop :=
  ∃ rows, rows ≡ₚ df ∧
    Forall2 (λ nr f, geometry_of f = Point (coords nr.2)) rows fs.

Definition radar_position (row : Radar.Row) : position :=
  [Radar.Longitude row; Radar.Latitude row].

Definition station_position (row : Station.Row) : position :=
  [Station.Longitude row; Station.Latitude row].

(** * Stand-ins for the examples

    [demo_Wedge] builds a wedge for any two angles that are numbers, equal
    ones too, and raises [ValueError] when an angle is not a number, as
    matplotlib does.  It lays the path out the way matplotlib does: the
    vertices of the arc, then the centre, twice.  The arc is drawn with two
    vertices only.

    The tables of the examples hold whole numbers in their [MHz] cells, or a
    blank: [demo_python] is never asked for the text of another float, nor
    for the integer of a text. *)

Definition demo_Wedge : WedgeCtor := λ center r theta1 theta2,
  let '(x, y) := center in
  if PrimFloat.is_nan theta1 || PrimFloat.is_nan theta2 then Raise ValueError
  else
    let a0 := [(x + r)%float; y] in
    let a1 := [x; (y + r)%float] in
    Ok (mkPatch [a0; a1; [x; y]; [x; y]]).

Definition demo_python : Python := mkPython (λ _, "nan") (λ _, None).

Definition radar_good : Radar.Row :=
  Radar.mkRow "Site A" (Some "Operational") (VInt 5) 30 120 (-80.5) 28.25.

(** A radar whose angle cells are blank. *)
Definition radar_nan : Radar.Row :=
  Radar.mkRow "Site B" (Some "Operational") (VInt 5) nan nan (-81) 29.

Definition radar_planned : Radar.Row :=
  Radar.mkRow "Site C" (Some "Planned") (VInt 16) 10 90 (-79) 30.


(** A radar whose status cell is blank, one whose band cell is blank, and
    one whose band cell holds 5.7. *)
Definition radar_blank : Radar.Row :=
  Radar.mkRow "Site E" None (VInt 5) 30 120 (-80) 27.

Definition radar_blank_band : Radar.Row :=
  Radar.mkRow "Site F" (Some "Operational") (VFloat nan) 30 120 (-80) 27.


Definition radar_frame : DataFrame Radar.Row :=
  [(VStr "C", radar_planned); (VStr "A", radar_good); (VStr "B", radar_nan)].

Definition buoy1 : Station.Row :=
  Station.mkRow (Some "Fixed Surface Buoy") (Some "Operational") "Buoy1"
    "Offshore test buoy" (-80.5) 28.25.

Definition glider : Station.Row :=
  Station.mkRow (Some "Glider") (Some "Operational") "Glider1" "Shelf transect"
    (-79.5) 31.

Definition shore2 : Station.Row :=
  Station.mkRow (Some "Fixed Coastal Station") (Some "Planned") "Pier2"
    "Fishing pier" (-81.25) 30.5.

Definition shore_long : Station.Row :=
  Station.mkRow (Some "Fixed Coastal Station") (Some "Operational")
    "Coastal Ocean Monitoring and Prediction System meteorological station at the fishing pier"
    "Fishing pier" (-82.75) 27.5.

(** A station whose platform type cell is blank. *)
Definition station_blank : Station.Row :=
  Station.mkRow None (Some "Operational") "Buoy9" "Unclassified" (-80) 29.

Definition station_frame : DataFrame Station.Row :=
  [(VInt 0, shore2); (VInt 1, buoy1)].

(** A point without a name and a polygon without a name. *)
Definition nameless_point : Feature :=
  mkFeature (Point [(-80.5)%float; 28.25%float]) ∅.

Definition nameless_polygon : Feature :=
  mkFeature (Polygon [[[0%float; 0%float]; [1%float; 0%float];
                       [0%float; 1%float]; [0%float; 0%float]]])
    (polygon_defaults ∅).

(** The collection built from [radar_frame] with the stand-in wedge. *)
Definition radar_collection : FeatureCollection :=
  match data_frame2gis.parse_hfradar demo_python demo_Wedge radar_frame ∅ with
  | Ok fc => fc
  | Raise _ => mkFeatureCollection []
  end.

(** The collection built from [station_frame]. *)
Definition station_collection : FeatureCollection :=
  match data_frame2gis.parse_stations station_frame with
  | Ok fc => fc
  | Raise _ => mkFeatureCollection []
  end.

(** The patch of the stand-in wedge of [radar_good]. *)
Definition demo_patch : Patch :=
  match data_frame2gis.wedge demo_python demo_Wedge radar_good with
  | Ok (Some p) => p
  | _ => mkPatch []
  end.

(** * Vocabulary of the further properties *)

(** The wedge of a row is built on a path of at least two vertices, the
    least that [vertices[-2]] needs. *)
Definition wedge_drawn (py : Python) (Wedge : WedgeCtor) (row : Radar.Row)
    : Prop :=
  ∃ p, data_frame2gis.wedge py Wedge row = Ok (Some p) ∧
       (2 ≤ length (path_vertices p))%nat.

(** A radar row that the loops can pass: its status is listed and its wedge
    is either refused or drawn. *)
Definition row_passes (py : Python) (Wedge : WedgeCtor)
    (nr : value * Radar.Row) : Prop :=
  status_listed (Radar.Status nr.2) ∧
  (data_frame2gis.wedge py Wedge nr.2 = Ok None ∨ wedge_drawn py Wedge nr.2).

(** The text of the popup of a radar row, ["{} ({} MHz)"]: the title, then
    the [MHz] cell as [format] prints it, the decimal writing of a whole
    number, [str(x)] for a float [x] (so "5.0" in a column of floats) and a
    text as it is. *)
Definition radar_popup (py : Python) (row : Radar.Row) : string :=
  Radar.DisplayTitle row +:+ " (" +:+
  match Radar.MHz row with
  | VInt n => pretty n
  | VFloat x => str_float py x
  | VStr s => s
  end +:+ " MHz)".

(** The colour of the icon of each status and the icon of each platform
    type, as the icon files are named. *)
Definition status_color_pairs : list (string * string) :=
  [("Planned", "orange"); ("Operational", "green");
   ("Permitting", "yellow"); ("Construction", "yellow")].

Definition platform_icon_pairs : list (string * string) :=
  [("Fixed Surface Buoy", "buoy"); ("Fixed Bottom Station", "circ");
   ("Fixed Bottom Mount Mooring", "tri");
   ("Fixed Coastal Station", "shore_station"); ("HFRadar", "hfradar")].

(** The keys of the styling of a coverage polygon. *)
Definition styling_keys : gset string :=
  {["stroke"; "stroke_width"; "stroke_opacity"; "fill"; "fill_opacity"]}.

(** The keys of the property bag of a point feature. *)
Definition point_keys : gset string :=
  {["icon"; "name"; "popupContent"]}.

(** The place of a status in the sorted order of the four listed ones. *)
Definition status_rank (status : string) : nat :=
  if decide (status = "Construction") then 0
  else if decide (status = "Operational") then 1
  else if decide (status = "Permitting") then 2
  else 3.

(** The loops under two sets of styling keywords keep the same local
    [polygon], the same points and polygons of the same geometries. *)
Definition same_but_styling (st st' : radar_locals) : Prop :=
  polygon st = polygon st' ∧
  points st = points st' ∧
  geometry_of <$> polygons st = geometry_of <$> polygons st'.

(** The point feature of a station row under the icon table [icons], for a
    row whose status and platform type are listed. *)
Definition station_point_of (icons : gmap string string)
    (nr : value * Station.Row) : Feature :=
  station_point
    (default "" (status ← Station.Status nr.2; status_colors !! status))
    (default "" (platformtype ← Station.PlatformType nr.2;
                 icons !! platformtype)) nr.

(** * Facts about [groupby] *)

Lemma elem_of_concat {A : Type} (ls : list (list A)) (x : A) :
  x ∈ concat ls ↔ ∃ l, l ∈ ls ∧ x ∈ l.
Proof.
  induction ls as [|l ls IH]; simpl.
  - split; [by intros ?%elem_of_nil|]. by intros (l & ?%elem_of_nil & _).
  - rewrite elem_of_app, IH. split.
    + intros [Hx|(l' & Hl' & Hx)]; [exists l|exists l']; split; try done.
      * by left.
      * by right.
    + intros (l' & [->|Hl']%elem_of_cons & Hx); [by left|right; eauto].
Qed.

Lemma StronglySorted_mono {A} (R R' : relation A) (l : list A) :
  (∀ x y, R x y → R' x y) → StronglySorted R l → StronglySorted R' l.
Proof.
  intros HR. induction 1 as [|x l _ IH Hx]; constructor; [done|].
  eapply Forall_impl; [done|]. intros y. apply HR.
Qed.

Section groupby_facts.
Context {K Row : Type} `{KeyOrder K} (key : Row → option K).

Local Abbreviation sel k := (λ nr : value * Row, key nr.2 = Some k).

Lemma group_keys_NoDup (df : DataFrame Row) : NoDup (group_keys key df).
Proof.
  unfold group_keys. rewrite merge_sort_Permutation. apply NoDup_remove_dups.
Qed.

Lemma group_keys_sorted (df : DataFrame Row) :
  StronglySorted key_le (group_keys key df).
Proof. apply StronglySorted_merge_sort; apply _. Qed.

Lemma elem_of_group_keys (df : DataFrame Row) (k : K) :
  k ∈ group_keys key df ↔ ∃ nr, nr ∈ df ∧ key nr.2 = Some k.
Proof.
  unfold group_keys.
  by rewrite merge_sort_Permutation, elem_of_remove_dups, list_elem_of_omap.
Qed.

Lemma visit_order_concat (df : DataFrame Row) :
  visit_order key df =
  concat ((λ k, filter (sel k) df) <$> group_keys key df).
Proof.
  unfold visit_order, groupby. by rewrite <-list_fmap_compose.
Qed.

Lemma filter_sel_other (k k' : K) (l : DataFrame Row) :
  k ≠ k' → filter (sel k) (filter (sel k') l) = [].
Proof.
  intros Hne. rewrite list_filter_filter.
  induction l as [|x l IH]; [done|].
  rewrite filter_cons_False; [done|]. intros [? ?]. congruence.
Qed.

Lemma filter_sel_same (k : K) (l : DataFrame Row) :
  filter (sel k) (filter (sel k) l) = filter (sel k) l.
Proof. rewrite list_filter_filter. apply list_filter_iff. intros nr; tauto. Qed.

Lemma filter_sel_absent (k : K) (l : DataFrame Row) :
  (∀ nr, nr ∈ l → key nr.2 ≠ Some k) → filter (sel k) l = [].
Proof.
  intros Hl. induction l as [|x l IH]; [done|].
  rewrite filter_cons_False.
  - apply IH. intros nr ?. apply Hl. by right.
  - apply Hl. by left.
Qed.

(** A group is made of rows that have a key. *)
Lemma filter_sel_keyed (k : K) (l : DataFrame Row) :
  filter (sel k) (keyed key l) = filter (sel k) l.
Proof.
  unfold keyed. rewrite list_filter_filter. apply list_filter_iff.
  intros nr. split; [tauto|]. intros Hk. split; [done|]. by rewrite Hk.
Qed.

Lemma keyed_keyed (l : DataFrame Row) : keyed key (keyed key l) = keyed key l.
Proof.
  unfold keyed. rewrite list_filter_filter. apply list_filter_iff.
  intros nr; tauto.
Qed.

Lemma elem_of_keyed (l : DataFrame Row) (nr : value * Row) :
  nr ∈ keyed key l ↔ nr ∈ l ∧ is_Some (key nr.2).
Proof. unfold keyed. rewrite list_elem_of_filter. tauto. Qed.

Lemma keyed_all (l : DataFrame Row) :
  (∀ nr, nr ∈ l → is_Some (key nr.2)) → keyed key l = l.
Proof.
  intros Hl. induction l as [|x l IH]; [done|]. unfold keyed.
  rewrite filter_cons_True by (apply Hl; by left). f_equal.
  apply IH. intros nr ?. apply Hl. by right.
Qed.

Lemma keyed_app (l1 l2 : DataFrame Row) :
  keyed key (l1 ++ l2) = keyed key l1 ++ keyed key l2.
Proof. apply filter_app. Qed.

Lemma group_keys_keyed (l : DataFrame Row) :
  group_keys key (keyed key l) = group_keys key l.
Proof.
  unfold group_keys. do 2 f_equal.
  induction l as [|x l IH]; [done|]. unfold keyed. rewrite filter_cons.
  case_decide as Hx; simpl.
  - destruct (key x.2); [by f_equal|done].
  - destruct (key x.2); [|done]. destruct Hx. by eexists.
Qed.

(** Grouping a frame is grouping its rows that have a key. *)
Lemma groupby_keyed (df : DataFrame Row) :
  groupby key (keyed key df) = groupby key df.
Proof.
  unfold groupby. rewrite group_keys_keyed. apply list_fmap_ext.
  intros i k _. by rewrite filter_sel_keyed.
Qed.

Lemma visit_order_keyed (df : DataFrame Row) :
  visit_order key (keyed key df) = visit_order key df.
Proof. unfold visit_order. by rewrite groupby_keyed. Qed.

(** Each group of the frame is found again, whole and in the frame's order,
    among the visited rows. *)
Lemma filter_concat_groups (ks : list K) (k : K) (l : DataFrame Row) :
  NoDup ks →
  filter (sel k) (concat ((λ k', filter (sel k') l) <$> ks)) =
  if decide (k ∈ ks) then filter (sel k) l else [].
Proof.
  induction 1 as [|k' ks Hk' Hks IH]; csimpl; [done|].
  rewrite filter_app, IH. destruct (decide (k = k')) as [->|Hne].
  - rewrite filter_sel_same, decide_False, decide_True by (done || by left).
    by rewrite app_nil_r.
  - rewrite filter_sel_other by done. simpl.
    destruct (decide (k ∈ ks)).
    + rewrite decide_True by (by right). done.
    + rewrite decide_False; [done|]. by intros [?|?]%elem_of_cons.
Qed.

Lemma visit_order_stable (df : DataFrame Row) (k : K) :
  filter (sel k) (visit_order key df) = filter (sel k) df.
Proof.
  rewrite visit_order_concat, filter_concat_groups by apply group_keys_NoDup.
  case_decide as Hk; [done|]. symmetry. apply filter_sel_absent.
  intros nr Hnr Hkey. apply Hk, elem_of_group_keys. eauto.
Qed.

Lemma concat_groups_Permutation (ks : list K) (l : DataFrame Row) :
  NoDup ks → (∀ nr, nr ∈ l → ∃ k, key nr.2 = Some k ∧ k ∈ ks) →
  concat ((λ k, filter (sel k) l) <$> ks) ≡ₚ l.
Proof.
  intros Hks. revert l. induction Hks as [|k ks Hk Hks IH]; intros l Hl; csimpl.
  - destruct l as [|nr l]; [done|].
    destruct (Hl nr) as (k & _ & []%elem_of_nil). by left.
  - etrans; [|apply (filter_app_complement (sel k) l)].
    apply Permutation_app_head.
    etrans; [|apply (IH (filter (λ nr, ¬ sel k nr) l))].
    + apply reflexive_eq. f_equal. apply list_fmap_ext. intros i k' Hk'.
      rewrite list_filter_filter. apply list_filter_iff.
      intros nr. split; [|tauto]. intros Heq. split; [done|].
      rewrite Heq. intros [= ->]. apply Hk. by eapply list_elem_of_lookup_2.
    + intros nr [Hne Hnr]%list_elem_of_filter.
      destruct (Hl nr Hnr) as (k' & Hk' & [->|?]%elem_of_cons); [done|eauto].
Qed.

(** The rows visited are the rows that have a key. *)
Lemma visit_order_Permutation (df : DataFrame Row) :
  visit_order key df ≡ₚ keyed key df.
Proof.
  rewrite <-visit_order_keyed, visit_order_concat, group_keys_keyed.
  apply concat_groups_Permutation; [apply group_keys_NoDup|].
  intros nr [Hnr [k Hk]]%elem_of_keyed. exists k. split; [done|].
  apply elem_of_group_keys. eauto.
Qed.

Lemma concat_groups_sorted (ks : list K) (l : DataFrame Row) :
  StronglySorted key_le ks →
  StronglySorted
    (λ x y, ∃ kx ky, key x.2 = Some kx ∧ key y.2 = Some ky ∧ key_le kx ky)
    (concat ((λ k, filter (sel k) l) <$> ks)).
Proof.
  induction 1 as [|k ks Hks IH Hk]; csimpl; [constructor|].
  apply StronglySorted_app_2; [| |done].
  - intros x y [Hx _]%list_elem_of_filter Hy.
    apply elem_of_concat in Hy as (g & Hg & Hy).
    apply list_elem_of_fmap in Hg as (k' & -> & Hk').
    apply list_elem_of_filter in Hy as [Hy _].
    exists k, k'. do 2 (split; [done|]).
    rewrite Forall_forall in Hk. by apply Hk.
  - clear. induction l as [|x l IHl]; [constructor|].
    rewrite filter_cons. case_decide as Hx; [|done].
    constructor; [done|]. apply Forall_forall.
    intros y [Hy _]%list_elem_of_filter. exists k, k.
    do 2 (split; [done|]). apply key_le_refl.
Qed.

Lemma visit_order_sorted (df : DataFrame Row) :
  StronglySorted
    (λ x y, ∃ kx ky, key x.2 = Some kx ∧ key y.2 = Some ky ∧ key_le kx ky)
    (visit_order key df).
Proof.
  rewrite visit_order_concat. apply concat_groups_sorted, group_keys_sorted.
Qed.

Lemma visit_order_length (df : DataFrame Row) :
  length (visit_order key df) = length (keyed key df).
Proof. by rewrite visit_order_Permutation. Qed.

Lemma elem_of_visit_order (df : DataFrame Row) (nr : value * Row) :
  nr ∈ visit_order key df ↔ nr ∈ df ∧ is_Some (key nr.2).
Proof. by rewrite visit_order_Permutation, elem_of_keyed. Qed.

Lemma visit_order_Forall_keyed (df : DataFrame Row) :
  Forall (λ nr, is_Some (key nr.2)) (visit_order key df).
Proof. apply Forall_forall. by intros nr [_ ?]%elem_of_visit_order. Qed.

(** Every group is inhabited and holds rows of its key only. *)
Lemma groupby_groups (df : DataFrame Row) (k : K) (g : DataFrame Row) :
  (k, g) ∈ groupby key df → g ≠ [] ∧ Forall (sel k) g.
Proof.
  unfold groupby. intros (k' & [= <- ->] & Hk)%list_elem_of_fmap. split.
  - apply elem_of_group_keys in Hk as (nr & Hnr & Hkey).
    intros Hnil. by apply (filter_nil_not_elem_of _ _ nr Hnil).
  - apply Forall_forall. by intros nr [? _]%list_elem_of_filter.
Qed.
End groupby_facts.

(** * Facts about loops *)

Lemma bind_Ok {A B} (m : result A) (f : A → result B) (b : B) :
  m ≫= f = Ok b ↔ ∃ a, m = Ok a ∧ f a = Ok b.
Proof.
  destruct m as [a|e]; simpl.
  - split; [eauto|]. by intros (? & [= <-] & ?).
  - split; [done|]. by intros (? & ? & _).
Qed.


Lemma getitem_Ok `{Lookup K V M} (d : M) (k : K) (v : V) :
  getitem d k = Ok v ↔ d !! k = Some v.
Proof.
  unfold getitem. destruct (d !! k); split; intros; simplify_eq; done.
Qed.

Lemma getitem_None `{Lookup K V M} (d : M) (k : K) :
  d !! k = None → getitem d k = Raise KeyError.
Proof. unfold getitem. by intros ->. Qed.

Section loops.
Context {A S : Type} (body : S → A → result S).

Lemma for_each_app (s : S) (l1 l2 : list A) :
  for_each body s (l1 ++ l2) =
  for_each body s l1 ≫= λ s', for_each body s' l2.
Proof.
  revert s. induction l1 as [|x l1 IH]; intros s; simpl; [done|].
  destruct (body s x); simpl; [apply IH|done].
Qed.


Lemma for_each_ext (body' : S → A → result S) (s : S) (l : list A) :
  (∀ s' x, x ∈ l → body s' x = body' s' x) →
  for_each body s l = for_each body' s l.
Proof.
  revert s. induction l as [|x l IH]; intros s Hl; simpl; [done|].
  rewrite <-Hl by left. destruct (body s x); simpl; [|done].
  apply IH. intros s' y Hy. apply Hl. by right.
Qed.
End loops.

(** Two nested loops, the outer one over the groups of a frame and the inner
    one over the rows of a group, amount to one loop over the rows in
    visiting order: what the outer loop computes from the key of a group is
    then computed from the key of each row. *)
Section nested_loops.
Context {K A S C : Type} (key : A → option K).
Context (outer : K → result C) (inner : C → S → A → result S).

Local Abbreviation group_body := (group_body outer inner).
Local Abbreviation row_body := (row_body key outer inner).

Lemma for_each_groups (groups : list (K * list A)) (s : S) :
  Forall (λ g, g.2 ≠ [] ∧ Forall (λ x, key x = Some g.1) g.2) groups →
  for_each group_body s groups = for_each row_body s (concat (snd <$> groups)).
Proof.
  intros Hgroups. revert s.
  induction Hgroups as [|[k g] groups [Hne Hkey] _ IH]; intros s; csimpl;
    [done|].
  simpl in Hne, Hkey. rewrite for_each_app.
  change (group_body s (k, g)) with (outer k ≫= λ c, for_each (inner c) s g).
  assert (for_each row_body s g = outer k ≫= λ c, for_each (inner c) s g)
    as ->.
  { destruct (outer k) as [c|e] eqn:Hk; simpl.
    - apply for_each_ext. intros s' x Hx. unfold row_body.
      rewrite Forall_forall in Hkey. by rewrite (Hkey x Hx), Hk.
    - destruct g as [|x g]; [by destruct Hne|]. simpl. unfold row_body.
      apply Forall_cons in Hkey as [-> _]. by rewrite Hk. }
  destruct (outer k) as [c|e]; simpl; [|done].
  destruct (for_each (inner c) s g); simpl; [apply IH|done].
Qed.
End nested_loops.

(** * The radar builders *)

(** The two scripts build the same collection. *)
Lemma df2features_parse_hfradar (py : Python) (Wedge : WedgeCtor) :
  hfradar_geojson.df2features py Wedge = data_frame2gis.parse_hfradar py Wedge.
Proof. reflexivity. Qed.

Lemma status_colors_statuses (s : string) :
  is_Some (status_colors !! s) ↔ s ∈ statuses.
Proof.
  unfold status_colors, statuses.
  rewrite !lookup_insert_is_Some, lookup_empty, !elem_of_cons, elem_of_nil.
  split.
  - intros [->|[_ [->|[_ [->|[_ [->|[_ []%is_Some_None]]]]]]]]; tauto.
  - intros [->|[->|[->|[->|[]]]]].
    + by left.
    + right; split; [done|]. by left.
    + right; split; [done|]. right; split; [done|]. by left.
    + right; split; [done|]. right; split; [done|]. right; split; [done|].
      by left.
Qed.



Section radar_facts.
Context (py : Python) (Wedge : WedgeCtor) (defaults : gmap string value).

Local Abbreviation wedge := (data_frame2gis.wedge py Wedge).
Local Abbreviation mpl := data_frame2gis.mpl_patch2geo_polygon.
Local Abbreviation step := (hfradar_step py Wedge defaults).
Local Abbreviation run := (radar_run py Wedge defaults).

Lemma mpl_patch2geo_polygon_Ok (p : Patch) (g : geometry) :
  mpl p = Ok g ↔
  ∃ v, list_getitem (path_vertices p) (-2) = Ok v ∧
       g = Polygon [path_vertices p ++ [v]].
Proof.
  unfold data_frame2gis.mpl_patch2geo_polygon. rewrite bind_Ok.
  split; intros (v & Hv & Hg); exists v; split; congruence.
Qed.

Lemma mpl_patch2geo_polygon_type (p : Patch) (g : geometry) :
  mpl p = Ok g → geometry_type g = "Polygon".
Proof. intros (v & _ & ->)%mpl_patch2geo_polygon_Ok. done. Qed.

(** The three ways in which the body of the loops ends well on a row. *)
Lemma hfradar_step_Ok (st st' : radar_locals) (nr : value * Radar.Row)
    (status : string) :
  Radar.Status nr.2 = Some status →
  step st nr = Ok st' ↔
  ∃ color g,
    status_colors !! status = Some color ∧
    ((∃ p, wedge nr.2 = Ok (Some p) ∧ mpl p = Ok g) ∨
     (wedge nr.2 = Ok None ∧ polygon st = Some g)) ∧
    st' = mkLocals (Some g) (points st ++ [radar_point py color nr])
            (polygons st ++ [mkFeature g defaults]).
Proof.
  destruct nr as [name row]. unfold hfradar_step. simpl. intros ->.
  rewrite bind_Ok. setoid_rewrite getitem_Ok.
  unfold data_frame2gis.hfradar_row.
  split.
  - intros (color & Hcolor & Hrow). exists color.
    destruct (wedge row) as [[p|]|e]; simpl in Hrow; [| |done].
    + destruct (mpl p) as [g|e] eqn:Hg; simpl in Hrow; [|done].
      exists g. injection Hrow as <-. eauto 10.
    + destruct (polygon st) as [g|] eqn:Hprev; [|done].
      exists g. injection Hrow as <-. eauto 10.
  - intros (color & g & Hcolor & [(p & Hp & Hg)|[Hnone Hprev]] & ->);
      exists color; (split; [done|]).
    + by rewrite Hp; simpl; rewrite Hg.
    + by rewrite Hnone; simpl; rewrite Hprev.
Qed.

(** The loops over rows that have a status, as a run. *)
Lemma radar_loop_run (rows : list (value * Radar.Row)) (st st' : radar_locals) :
  Forall (λ nr, is_Some (Radar.Status nr.2)) rows →
  for_each step st rows = Ok st' ↔
  ∃ pts pgs,
    run (polygon st) rows pts pgs (polygon st') ∧
    points st' = points st ++ pts ∧
    polygons st' = polygons st ++ pgs.
Proof.
  intros Hrows. revert st.
  induction Hrows as [|nr rows [status Hstatus] _ IH]; intros st; simpl.
  - split.
    + intros [= <-]. exists [], []. rewrite !app_nil_r. by repeat constructor.
    + intros (pts & pgs & Hrun & Hpts & Hpgs). inversion Hrun; subst.
      rewrite app_nil_r in *. destruct st, st'; simpl in *. congruence.
  - rewrite bind_Ok. setoid_rewrite (hfradar_step_Ok _ _ _ _ Hstatus).
    setoid_rewrite IH. split.
    + intros (st1 & (color & g & Hcolor & Hcase & ->) & pts & pgs & Hrun
              & Hpts & Hpgs). simpl in *.
      exists (radar_point py color nr :: pts), (mkFeature g defaults :: pgs).
      rewrite <-!app_assoc in *. split; [|done].
      destruct Hcase as [(p & Hp & Hg)|[Hnone ->]].
      * by eapply run_built.
      * by eapply run_repeat.
    + intros (pts & pgs & Hrun & Hpts & Hpgs).
      inversion Hrun as [|? ? ? s color p g pts' pgs' ? Hs Hcolor Hp Hg Hrun'
                         |g ? ? s color pts' pgs' ? Hs Hcolor Hnone Hrun' Hprev];
        subst; assert (s = status) as -> by congruence.
      * eexists. split.
        { exists color, g. split; [done|]. split; [left; eauto|done]. }
        simpl. exists pts', pgs'. by rewrite <-!app_assoc.
      * eexists. split.
        { exists color, g. split; [done|]. split; [right; eauto|done]. }
        simpl. exists pts', pgs'. by rewrite <-!app_assoc.
Qed.

Lemma radar_run_length prev rows pts pgs final :
  run prev rows pts pgs final →
  length pts = length rows ∧ length pgs = length rows.
Proof. induction 1; simpl; lia. Qed.

(** The points of a run are the points of the rows, one for one. *)
Lemma radar_run_points prev rows pts pgs final :
  run prev rows pts pgs final →
  Forall2 (λ nr f, ∃ status color,
    Radar.Status nr.2 = Some status ∧
    status_colors !! status = Some color ∧ f = radar_point py color nr)
    rows pts.
Proof. induction 1; constructor; eauto 10. Qed.

Lemma radar_run_points_type prev rows pts pgs final :
  run prev rows pts pgs final →
  Forall (λ f, geometry_type (geometry_of f) = "Point") pts.
Proof. induction 1; by constructor. Qed.

(** The polygons of a run started with no polygon, or with a polygon, are
    polygons. *)
Lemma radar_run_polygons prev rows pts pgs final :
  run prev rows pts pgs final →
  (∀ g, prev = Some g → geometry_type g = "Polygon") →
  Forall (λ f, geometry_type (geometry_of f) = "Polygon" ∧
               properties f = defaults) pgs.
Proof.
  induction 1 as [|? ? ? ? ? ? ? ? ? ? ? ? ? Hg ? IH|? ? ? ? ? ? ? ? ? ? ? ? IH];
    intros Hprev; constructor.
  - split; [|done]. by eapply mpl_patch2geo_polygon_type.
  - apply IH. intros ? [= <-]. by eapply mpl_patch2geo_polygon_type.
  - split; [|done]. by apply Hprev.
  - by apply IH.
Qed.

(** The polygons of a run pair off with the rows: the polygon at the place
    of a row whose wedge is built is the polygon of that wedge. *)
Lemma radar_run_polygons_rows prev rows pts pgs final :
  run prev rows pts pgs final →
  (∀ g, prev = Some g → geometry_type g = "Polygon") →
  Forall2 (λ nr f,
    geometry_type (geometry_of f) = "Polygon" ∧
    ∀ p, wedge nr.2 = Ok (Some p) → mpl p = Ok (geometry_of f)) rows pgs.
Proof.
  induction 1 as [|? ? ? ? ? ? ? ? ? ? ? ? Hp Hg ? IH
                  |? ? ? ? ? ? ? ? ? ? Hnone ? IH];
    intros Hprev; constructor.
  - split; [by eapply mpl_patch2geo_polygon_type|].
    intros p'. rewrite Hp. by intros [= <-].
  - apply IH. intros ? [= <-]. by eapply mpl_patch2geo_polygon_type.
  - split; [by apply Hprev|]. intros p'. by rewrite Hnone.
  - by apply IH.
Qed.

(** The polygon at the place of each row: the polygon of the row's wedge
    when it is built, and the polygon before it when it is refused. *)
Lemma radar_run_lookup prev rows pts pgs final (i : nat) nr :
  run prev rows pts pgs final →
  rows !! i = Some nr →
  ∃ f, pgs !! i = Some f ∧
    ((∃ p, wedge nr.2 = Ok (Some p) ∧ mpl p = Ok (geometry_of f)) ∨
     (wedge nr.2 = Ok None ∧
      match i with
      | O => prev = Some (geometry_of f)
      | S j => geometry_of <$> pgs !! j = Some (geometry_of f)
      end)).
Proof.
  intros Hrun. revert i.
  induction Hrun as [|prev nr' rows s color p g pts pgs final Hs Hcolor Hp Hg
                      Hrun IH
                     |g nr' rows s color pts pgs final Hs Hcolor Hnone Hrun IH];
    intros i Hi; [done| |].
  - destruct i as [|i]; simpl in *.
    + injection Hi as ->. eexists. split; [done|]. left. eauto.
    + destruct (IH i Hi) as (f & Hf & Hcase). exists f. split; [done|].
      destruct Hcase as [?|[Hw Hrep]]; [by left|right]. split; [done|].
      destruct i as [|i]; simpl; [|done]. by injection Hrep as ->.
  - destruct i as [|i]; simpl in *.
    + injection Hi as ->. eexists. split; [done|]. right. eauto.
    + destruct (IH i Hi) as (f & Hf & Hcase). exists f. split; [done|].
      destruct Hcase as [?|[Hw Hrep]]; [by left|right]. split; [done|].
      destruct i as [|i]; simpl; [|done]. by injection Hrep as ->.
Qed.
End radar_facts.

Section radar_builder.
Context (py : Python) (Wedge : WedgeCtor).

Lemma parse_hfradar_steps (df : DataFrame Radar.Row) (kw : gmap string value) :
  data_frame2gis.parse_hfradar py Wedge df kw =
  for_each (hfradar_step py Wedge (polygon_defaults kw)) (mkLocals None [] [])
    (visit_order Radar.Status df)
  ≫= λ st, Ok (mkFeatureCollection (points st ++ polygons st)).
Proof.
  unfold data_frame2gis.parse_hfradar, visit_order. f_equal.
  etrans; [|apply (for_each_groups
    (λ nr : value * Radar.Row, Radar.Status nr.2) (getitem status_colors)
    (data_frame2gis.hfradar_row py Wedge (polygon_defaults kw)))].
  - apply for_each_ext. by intros s [status group] _.
  - apply Forall_forall. intros [k g] Hg. by apply groupby_groups in Hg.
Qed.

Lemma parse_hfradar_Ok (df : DataFrame Radar.Row) (kw : gmap string value)
    (fc : FeatureCollection) :
  data_frame2gis.parse_hfradar py Wedge df kw = Ok fc ↔
  ∃ pts pgs final,
    radar_run py Wedge (polygon_defaults kw) None
      (visit_order Radar.Status df) pts pgs final ∧
    features fc = pts ++ pgs.
Proof.
  rewrite parse_hfradar_steps, bind_Ok.
  pose proof (visit_order_Forall_keyed Radar.Status df) as Hkeyed.
  split.
  - intros (st & Hloop & [= <-]).
    apply (radar_loop_run _ _ _ _ _ _ Hkeyed) in Hloop
      as (pts & pgs & Hrun & Hpts & Hpgs). simpl in *.
    rewrite Hpts, Hpgs. eauto.
  - intros (pts & pgs & final & Hrun & Hfc).
    exists (mkLocals final pts pgs). split.
    + apply (radar_loop_run _ _ _ _ _ _ Hkeyed). eauto.
    + destruct fc; simpl in *. by subst.
Qed.




(** The loops end well on rows of listed statuses whose wedges are all
    built and have a last vertex but one. *)
Lemma radar_run_total (defaults : gmap string value) (prev : option geometry)
    (rows : list (value * Radar.Row)) :
  Forall (λ nr, status_listed (Radar.Status nr.2) ∧
                wedge_built py Wedge nr.2) rows →
  ∃ pts pgs final, radar_run py Wedge defaults prev rows pts pgs final.
Proof.
  intros Hrows. revert prev.
  induction Hrows as [|nr rows [(s & Hs & Hl) (p & v & Hp & Hv)] _ IH];
    intros prev.
  - exists [], [], prev. constructor.
  - apply status_colors_statuses in Hl as [color Hcolor].
    destruct (IH (Some (Polygon [path_vertices p ++ [v]])))
      as (pts & pgs & final & Hrun).
    do 3 eexists. eapply run_built; [done..| |done].
    apply mpl_patch2geo_polygon_Ok. eauto.
Qed.

Lemma parse_hfradar_total (df : DataFrame Radar.Row) (kw : gmap string value) :
  (∀ nr, nr ∈ df → is_Some (Radar.Status nr.2) →
     status_listed (Radar.Status nr.2) ∧ wedge_built py Wedge nr.2) →
  ∃ fc, data_frame2gis.parse_hfradar py Wedge df kw = Ok fc.
Proof.
  intros Hdf.
  destruct (radar_run_total (polygon_defaults kw) None
    (visit_order Radar.Status df)) as (pts & pgs & final & Hrun).
  { apply Forall_forall. intros nr [Hnr ?]%elem_of_visit_order.
    by apply Hdf. }
  exists (mkFeatureCollection (pts ++ pgs)). apply parse_hfradar_Ok. eauto.
Qed.
End radar_builder.

(** * The station builders *)

Lemma station_key_Some (row : Station.Row) (platformtype status : string) :
  station_key row = Some (platformtype, status) ↔
  Station.PlatformType row = Some platformtype ∧
  Station.Status row = Some status.
Proof.
  unfold station_key.
  destruct (Station.PlatformType row), (Station.Status row); simpl;
    split; try done; try by intros [? ?]. 
  - by intros [= -> ->].
  - by intros [[= ->] [= ->]].
Qed.

Section station_builder.
Context (icons : gmap string string).

Local Abbreviation stations_features := (stations_features icons).
Local Abbreviation station_step := (station_step icons).
Local Abbreviation station_feature := (station_feature icons).

Lemma stations_features_steps (df : DataFrame Station.Row) :
  stations_features df =
  for_each station_step [] (visit_order station_key df)
  ≫= λ features, Ok (mkFeatureCollection features).
Proof.
  unfold stations_features, visit_order. f_equal.
  etrans; [|etrans; [apply (for_each_groups
    (λ nr : value * Station.Row, station_key nr.2)
    (λ k, color ← getitem status_colors k.2;
          platform ← getitem icons k.1; Ok (color, platform))
    (λ c, data_frame2gis.stations_row c.1 c.2))|]].
  - apply for_each_ext. intros s [[pt st] group] _.
    unfold group_body. simpl.
    destruct (getitem status_colors st); simpl; [|done].
    by destruct (getitem icons pt).
  - apply Forall_forall. intros [k g] Hg. by apply groupby_groups in Hg.
  - apply for_each_ext. intros s nr _. unfold station_step, row_body. simpl.
    destruct (station_key nr.2) as [[pt st]|]; simpl; [|done].
    destruct (getitem status_colors _); simpl; [|done].
    by destruct (getitem icons _).
Qed.

Lemma station_step_Ok (fs fs' : list Feature) (nr : value * Station.Row) :
  is_Some (station_key nr.2) →
  station_step fs nr = Ok fs' ↔ ∃ f, station_feature nr f ∧ fs' = fs ++ [f].
Proof.
  destruct nr as [name row]. unfold station_step, station_feature. simpl.
  intros [[pt st] Hkey]. rewrite Hkey.
  apply station_key_Some in Hkey as [Hpt Hst]. rewrite Hpt, Hst.
  rewrite bind_Ok. setoid_rewrite bind_Ok. setoid_rewrite getitem_Ok.
  unfold data_frame2gis.stations_row. split.
  - intros (color & Hcolor & platform & Hplatform & [= <-]).
    eexists. split; [by exists pt, st, color, platform|done].
  - intros (f & (? & ? & color & platform & [= <-] & [= <-] & Hcolor
                 & Hplatform & ->) & ->). eauto 10.
Qed.

Lemma station_loop_Ok (rows : list (value * Station.Row))
    (fs fs' : list Feature) :
  Forall (λ nr, is_Some (station_key nr.2)) rows →
  for_each station_step fs rows = Ok fs' ↔
  ∃ new, Forall2 station_feature rows new ∧ fs' = fs ++ new.
Proof.
  intros Hrows. revert fs.
  induction Hrows as [|nr rows Hkey _ IH]; intros fs; simpl.
  - split.
    + intros [= <-]. exists []. by rewrite app_nil_r.
    + intros (new & ->%Forall2_nil_inv_l & ->). by rewrite app_nil_r.
  - rewrite bind_Ok. setoid_rewrite (station_step_Ok _ _ _ Hkey).
    setoid_rewrite IH. split.
    + intros (? & (f & Hf & ->) & new & Hnew & ->).
      exists (f :: new). rewrite <-app_assoc. by split; [constructor|].
    + intros (new & Hnew & ->).
      apply Forall2_cons_inv_l in Hnew as (f & new' & Hf & Hnew & ->).
      exists (fs ++ [f]). split; [eauto|]. exists new'.
      by rewrite <-app_assoc.
Qed.

Lemma stations_features_Ok (df : DataFrame Station.Row)
    (fc : FeatureCollection) :
  stations_features df = Ok fc ↔
  Forall2 station_feature (visit_order station_key df) (features fc).
Proof.
  rewrite stations_features_steps, bind_Ok.
  pose proof (visit_order_Forall_keyed station_key df) as Hkeyed.
  split.
  - intros (fs & Hloop & [= <-]).
    by apply (station_loop_Ok _ _ _ Hkeyed) in Hloop as (new & Hnew & ->).
  - intros Hfc. exists (features fc). split; [|by destruct fc].
    apply (station_loop_Ok _ _ _ Hkeyed). eauto.
Qed.


Lemma stations_features_total (df : DataFrame Station.Row) :
  (∀ nr, nr ∈ df → is_Some (station_key nr.2) →
     status_listed (Station.Status nr.2) ∧
     platform_listed icons (Station.PlatformType nr.2)) →
  ∃ fc, stations_features df = Ok fc.
Proof.
  intros Hdf.
  assert (∃ fs, Forall2 station_feature (visit_order station_key df) fs)
    as [fs Hfs].
  { assert (Forall (λ nr, nr ∈ df ∧ is_Some (station_key nr.2))
              (visit_order station_key df)) as Hrows.
    { apply Forall_forall. intros nr. by rewrite elem_of_visit_order. }
    induction Hrows as [|nr rows [Hnr Hkey] _ [fs IH]]; [by exists []|].
    destruct (Hdf nr Hnr Hkey) as [(s & Hs & Hl) (p & Hp & [platform Hicon])].
    apply status_colors_statuses in Hl as [color Hcolor].
    exists (station_point color platform nr :: fs).
    constructor; [|done]. by exists p, s, color, platform. }
  exists (mkFeatureCollection fs). by apply stations_features_Ok.
Qed.

End station_builder.

Lemma parse_stations_features :
  data_frame2gis.parse_stations =
  stations_features data_frame2gis.platforms_icons.
Proof. reflexivity. Qed.

Lemma df2features_stations_features :
  stations_geojson.df2features =
  stations_features stations_geojson.platforms_icons.
Proof. reflexivity. Qed.

(** * The shapefile writers *)

Lemma hfradar_save_shapefile :
  hfradar_geojson.save_shapefile = data_frame2gis.save_shapefile.
Proof. reflexivity. Qed.

Lemma save_feature_loop (geometry : string) (kfs : list (Z * Feature))
    (f : Collection) :
  schema_geometry f = geometry →
  for_each (data_frame2gis.save_feature geometry) f kfs =
  Ok (mkCollection (schema_geometry f) (schema_properties f)
        (records f ++ ((λ kf, record_of kf.1 kf.2) <$>
           filter (λ kf, geometry_type (geometry_of kf.2) = geometry) kfs))).
Proof.
  revert f. induction kfs as [|[k feature] kfs IH]; intros f Hf; simpl.
  - rewrite app_nil_r. by destruct f.
  - rewrite filter_cons. simpl. case_decide as Htype; simpl.
    + unfold write. simpl. rewrite decide_True by congruence. simpl.
      rewrite IH by done. simpl. by rewrite <-app_assoc.
    + by apply IH.
Qed.

Lemma save_shapefile_Ok (fc : FeatureCollection) (geometry : string) :
  data_frame2gis.save_shapefile fc geometry =
  Ok (mkCollection geometry [("name", "str:80")]
        ((λ kf, record_of kf.1 kf.2) <$> of_type geometry (features fc))).
Proof.
  unfold data_frame2gis.save_shapefile. by rewrite save_feature_loop.
Qed.

Lemma filter_imap_length {A} (P : A → Prop) `{∀ x, Decision (P x)}
    (f : nat → A → Z * A) (l : list A) :
  (∀ k x, (f k x).2 = x) →
  length (filter (λ kx : Z * A, P kx.2) (imap f l)) = length (filter P l).
Proof.
  revert f. induction l as [|x l IH]; intros f Hf; simpl; [done|].
  rewrite !filter_cons, Hf. specialize (IH (f ∘ S) (λ k, Hf (S k))).
  case_decide; simpl; by rewrite IH.
Qed.

Lemma of_type_length (geometry : string) (fs : list Feature) :
  length (of_type geometry fs) = count_type geometry fs.
Proof.
  unfold of_type, count_type, enumerate.
  exact (filter_imap_length
    (λ f, geometry_type (geometry_of f) = geometry)
    (λ k x, (Z.of_nat k, x)) fs (λ _ _, eq_refl)).
Qed.

Lemma filter_Forall_id {A} (P : A → Prop) `{∀ x, Decision (P x)} (l : list A) :
  Forall P l → filter P l = l.
Proof.
  induction 1 as [|x l Hx _ IH]; [done|].
  by rewrite filter_cons_True, IH.
Qed.

Lemma elem_of_enumerate {A} (l : list A) (k : nat) (x : A) :
  l !! k = Some x → (Z.of_nat k, x) ∈ enumerate l.
Proof.
  intros Hk. unfold enumerate. apply list_elem_of_lookup. exists k.
  by rewrite list_lookup_imap, Hk.
Qed.

Lemma stations_save_feature_Ok (f : Collection) (feature : Feature)
    (name : value) :
  geometry_type (geometry_of feature) = schema_geometry f →
  properties feature !! "name" = Some name →
  stations_geojson.save_feature f feature =
  Ok (mkCollection (schema_geometry f) (schema_properties f)
        (records f ++ [mkRecord (geometry_of feature) name])).
Proof.
  intros Htype Hname. unfold stations_geojson.save_feature.
  rewrite (proj2 (getitem_Ok _ _ _) Hname). simpl.
  unfold write. simpl. by rewrite decide_True.
Qed.

(** The writer of the stations script, on a collection of named points. *)
Lemma stations_save_loop (fs : list Feature) (f : Collection) :
  schema_geometry f = "Point" →
  Forall (λ feature, geometry_type (geometry_of feature) = "Point" ∧
                     is_Some (properties feature !! "name")) fs →
  ∃ rs, for_each stations_geojson.save_feature f fs =
          Ok (mkCollection (schema_geometry f) (schema_properties f)
                (records f ++ rs)) ∧
        Forall2 (λ feature r,
          record_geometry r = geometry_of feature ∧
          properties feature !! "name" = Some (record_name r)) fs rs.
Proof.
  intros Hf Hfs. revert f Hf.
  induction Hfs as [|feature fs [Htype [name Hname]] _ IH]; intros f Hf; simpl.
  - exists []. rewrite app_nil_r. by destruct f.
  - rewrite (stations_save_feature_Ok f feature name) by congruence. simpl.
    edestruct IH as (rs & -> & Hrs); [done|].
    exists (mkRecord (geometry_of feature) name :: rs). simpl.
    rewrite <-app_assoc. split; [done|]. by constructor.
Qed.

(** * The claims *)

(** Decides a closed, decidable proposition by evaluation. *)
Ltac decide_now :=
  match goal with
  | |- ?P => apply (bool_decide_unpack P); vm_compute; exact I
  end.

(** ** What the claims share *)

(** The first row visited has a listed status and a refused wedge: the
    polygon feature is appended while the local [polygon] is unbound. *)
Lemma first_refused_raises (py : Python) (Wedge : WedgeCtor)
    (df : DataFrame Radar.Row) (kw : gmap string value)
    (nr : value * Radar.Row) :
  head (visit_order Radar.Status df) = Some nr →
  status_listed (Radar.Status nr.2) →
  data_frame2gis.wedge py Wedge nr.2 = Ok None →
  data_frame2gis.parse_hfradar py Wedge df kw = Raise UnboundLocalError.
Proof.
  intros Hhead (s & Hs & [color Hcolor]%status_colors_statuses) Hnone.
  assert (hfradar_step py Wedge (polygon_defaults kw) (mkLocals None [] []) nr
          = Raise UnboundLocalError) as Hstep.
  { unfold hfradar_step. rewrite Hs, (proj2 (getitem_Ok _ _ _) Hcolor). simpl.
    destruct nr as [name row]. unfold data_frame2gis.hfradar_row.
    simpl in Hnone. by rewrite Hnone. }
  rewrite parse_hfradar_steps.
  destruct (visit_order Radar.Status df) as [|nr' rows]; [done|].
  injection Hhead as ->. simpl. by rewrite Hstep.
Qed.

(** The points of a returned collection are as many as the rows that have a
    status. *)
Lemma radar_run_visit_length (py : Python) (Wedge : WedgeCtor)
    (defaults : gmap string value) (df : DataFrame Radar.Row) prev pts pgs final :
  radar_run py Wedge defaults prev (visit_order Radar.Status df) pts pgs final →
  length pts = length (keyed Radar.Status df) ∧
  length pgs = length (keyed Radar.Status df).
Proof.
  intros Hrun%radar_run_length. by rewrite visit_order_length in Hrun.
Qed.

Lemma status_colors_pairs (status color : string) :
  status_colors !! status = Some color ↔ (status, color) ∈ status_color_pairs.
Proof.
  unfold status_colors, status_color_pairs.
  rewrite !lookup_insert_Some, lookup_empty, !elem_of_cons, elem_of_nil.
  split.
  - intros [[<- <-]|[_ [[<- <-]|[_ [[<- <-]|[_ [[<- <-]|[_ ?]]]]]]]];
      [tauto..|done].
  - intros [[= -> ->]|[[= -> ->]|[[= -> ->]|[[= -> ->]|[]]]]].
    + by left.
    + right. split; [done|]. by left.
    + right. split; [done|]. right. split; [done|]. by left.
    + right. split; [done|]. right. split; [done|]. right. split; [done|].
      by left.
Qed.

Lemma status_color_not_label (status color : string) :
  (status, color) ∈ status_color_pairs → color ≠ status.
Proof.
  unfold status_color_pairs. rewrite !elem_of_cons, elem_of_nil.
  by intros [[= -> ->]|[[= -> ->]|[[= -> ->]|[[= -> ->]|[]]]]].
Qed.

Lemma platforms_icons_pairs (platformtype platform : string) :
  data_frame2gis.platforms_icons !! platformtype = Some platform ↔
  (platformtype, platform) ∈ platform_icon_pairs.
Proof.
  unfold data_frame2gis.platforms_icons, platform_icon_pairs.
  rewrite !lookup_insert_Some, lookup_empty, !elem_of_cons, elem_of_nil.
  split.
  - intros [[<- <-]|[_ [[<- <-]|[_ [[<- <-]|[_ [[<- <-]|[_ [[<- <-]|[_ ?]]]]]]]]]];
      [tauto..|done].
  - intros [[= -> ->]|[[= -> ->]|[[= -> ->]|[[= -> ->]|[[= -> ->]|[]]]]]].
    + by left.
    + right. split; [done|]. by left.
    + right. split; [done|]. right. split; [done|]. by left.
    + right. split; [done|]. right. split; [done|]. right. split; [done|].
      by left.
    + right. split; [done|]. right. split; [done|]. right. split; [done|].
      right. split; [done|]. by left.
Qed.

Lemma stations_platforms_icons_pairs (platformtype platform : string) :
  stations_geojson.platforms_icons !! platformtype = Some platform ↔
  (platformtype, platform) ∈ platform_icon_pairs ∧ platformtype ≠ "HFRadar".
Proof.
  unfold stations_geojson.platforms_icons, platform_icon_pairs.
  rewrite !lookup_insert_Some, lookup_empty, !elem_of_cons, elem_of_nil.
  split.
  - intros [[<- <-]|[_ [[<- <-]|[_ [[<- <-]|[_ [[<- <-]|[_ ?]]]]]]]];
      [split; [tauto|done]..|done].
  - intros [[[= -> ->]|[[= -> ->]|[[= -> ->]|[[= -> ->]|[[= -> ->]|[]]]]]] ?];
      [| | | |done].
    + by left.
    + right. split; [done|]. by left.
    + right. split; [done|]. right. split; [done|]. by left.
    + right. split; [done|]. right. split; [done|]. right. split; [done|].
      by left.
Qed.

(** ** C1 *)

(** C1.  A radar row whose wedge is refused (the constructor raised
    [ValueError]: matplotlib does so when an angle cell is blank, not when
    both angles are 0) is said to give a point feature and no polygon
    feature, without an error.  The builders do otherwise, whatever the
    constructor: the polygon feature is appended for every row, outside the
    test of the wedge.  When the refused row is the first one visited and
    its status is listed, the local [polygon] is unbound and the run ends in
    [UnboundLocalError].  When the builder returns, the refused row is
    visited after another one and has a polygon feature all the same, at its
    place among the polygons, with the geometry of the polygon before it. *)
Theorem degenerate_wedge_polygon_not_skipped (py : Python) (Wedge : WedgeCtor)
    (df : DataFrame Radar.Row) (kw : gmap string value)
    (i : nat) (nr : value * Radar.Row) :
  visit_order Radar.Status df !! i = Some nr →
  data_frame2gis.wedge py Wedge nr.2 = Ok None →
  (i = 0%nat → status_listed (Radar.Status nr.2) →
   data_frame2gis.parse_hfradar py Wedge df kw = Raise UnboundLocalError ∧
   hfradar_geojson.df2features py Wedge df kw = Raise UnboundLocalError) ∧
  (∀ fc,
     data_frame2gis.parse_hfradar py Wedge df kw = Ok fc ∨
     hfradar_geojson.df2features py Wedge df kw = Ok fc →
     let n := length (visit_order Radar.Status df) in
     length (features fc) = (n + n)%nat ∧
     ∃ j f g,
       i = S j ∧
       features fc !! (n + i)%nat = Some f ∧
       features fc !! (n + j)%nat = Some g ∧
       geometry_type (geometry_of f) = "Polygon" ∧
       geometry_of f = geometry_of g).
Proof.
  intros Hi Hnone.
  change (hfradar_geojson.df2features py Wedge)
    with (data_frame2gis.parse_hfradar py Wedge).
  split.
  - intros -> Hlisted.
    assert (head (visit_order Radar.Status df) = Some nr) as Hhead
      by (by destruct (visit_order Radar.Status df)).
    by rewrite (first_refused_raises py Wedge df kw nr).
  - intros fc Hfc.
    assert (data_frame2gis.parse_hfradar py Wedge df kw = Ok fc) as Hfc'
      by (by destruct Hfc).
    apply parse_hfradar_Ok in Hfc' as (pts & pgs & final & Hrun & Hfs).
    destruct (radar_run_length _ _ _ _ _ _ _ _ Hrun) as [Hpts Hpgs].
    simpl. rewrite Hfs, length_app, Hpts, Hpgs. split; [done|].
    destruct (radar_run_lookup _ _ _ _ _ _ _ _ i nr Hrun Hi)
      as (f & Hf & [(p & Hp & _)|[_ Hprev]]); [congruence|].
    destruct i as [|j]; [done|].
    destruct (pgs !! j) as [g|] eqn:Hg; [|done]. injection Hprev as Hprev.
    assert (∀ k, (pts ++ pgs) !! (length pts + k)%nat = pgs !! k) as Hshift.
    { intros k. rewrite lookup_app_r by lia. f_equal. lia. }
    exists j, f, g. split; [done|]. rewrite <-Hpts, !Hshift.
    do 2 (split; [done|]). split; [|done].
    assert (Forall (λ f, geometry_type (geometry_of f) = "Polygon" ∧
                         properties f = polygon_defaults kw) pgs) as Hpolygons
      by (by eapply radar_run_polygons).
    by destruct (Forall_lookup_1 _ _ _ _ Hpolygons Hf).
Qed.

Lemma degenerate_wedge_polygon_not_skipped_witness :
  (data_frame2gis.parse_hfradar demo_python demo_Wedge
     [(VStr "B", radar_nan)] ∅ = Raise UnboundLocalError ∧
   hfradar_geojson.df2features demo_python demo_Wedge
     [(VStr "B", radar_nan)] ∅ = Raise UnboundLocalError) ∧
  (length (features radar_collection) = 6%nat ∧
   ∃ j f g,
     1%nat = S j ∧
     features radar_collection !! 4%nat = Some f ∧
     features radar_collection !! (3 + j)%nat = Some g ∧
     geometry_type (geometry_of f) = "Polygon" ∧
     geometry_of f = geometry_of g).
Proof.
  split.
  - apply (degenerate_wedge_polygon_not_skipped demo_python demo_Wedge
      [(VStr "B", radar_nan)] ∅ 0 (VStr "B", radar_nan)).
    + by vm_compute.
    + by vm_compute.
    + done.
    + eexists. split; [done|]. decide_now.
  - apply (degenerate_wedge_polygon_not_skipped demo_python demo_Wedge
      radar_frame ∅ 1 (VStr "B", radar_nan)).
    + by vm_compute.
    + by vm_compute.
    + left. by vm_compute.
Defined.

(** ** C2 *)




(** ** C3 *)

(** C3.  When every row has a listed status (and, for stations, a platform
    type of the icon table), the returned collection holds exactly one point
    feature for each row, at [longitude, latitude] of that row.  The station
    builders return such a collection.  A collection returned by a radar
    builder is made of the points of the rows that have a status, followed
    by polygons only: of all the rows, when each has a status.  A radar
    builder does return when, besides, the wedge of every row is built. *)
Theorem one_point_per_row :
  (∀ df : DataFrame Station.Row,
     (∀ nr, nr ∈ df →
        status_listed (Station.Status nr.2) ∧
        platform_listed data_frame2gis.platforms_icons
          (Station.PlatformType nr.2)) →
     ∃ fc, data_frame2gis.parse_stations df = Ok fc ∧
           point_per_row station_position df (features fc)) ∧
  (∀ df : DataFrame Station.Row,
     (∀ nr, nr ∈ df →
        status_listed (Station.Status nr.2) ∧
        platform_listed stations_geojson.platforms_icons
          (Station.PlatformType nr.2)) →
     ∃ fc, stations_geojson.df2features df = Ok fc ∧
           point_per_row station_position df (features fc)) ∧
  (∀ (py : Python) (Wedge : WedgeCtor) (df : DataFrame Radar.Row)
     (kw : gmap string value) (fc : FeatureCollection),
     data_frame2gis.parse_hfradar py Wedge df kw = Ok fc ∨
     hfradar_geojson.df2features py Wedge df kw = Ok fc →
     ∃ pts pgs,
       features fc = pts ++ pgs ∧
       point_per_row radar_position (keyed Radar.Status df) pts ∧
       Forall (λ f, geometry_type (geometry_of f) = "Polygon") pgs) ∧
  (∀ (py : Python) (Wedge : WedgeCtor) (df : DataFrame Radar.Row)
     (kw : gmap string value) (fc : FeatureCollection),
     (∀ nr, nr ∈ df → is_Some (Radar.Status nr.2)) →
     data_frame2gis.parse_hfradar py Wedge df kw = Ok fc ∨
     hfradar_geojson.df2features py Wedge df kw = Ok fc →
     ∃ pts pgs,
       features fc = pts ++ pgs ∧
       point_per_row radar_position df pts ∧
       Forall (λ f, geometry_type (geometry_of f) = "Polygon") pgs) ∧
  (∀ (py : Python) (Wedge : WedgeCtor) (df : DataFrame Radar.Row)
     (kw : gmap string value),
     (∀ nr, nr ∈ df →
        status_listed (Radar.Status nr.2) ∧ wedge_built py Wedge nr.2) →
     ∃ fc, data_frame2gis.parse_hfradar py Wedge df kw = Ok fc ∧
           hfradar_geojson.df2features py Wedge df kw = Ok fc).
Proof.
  assert (∀ icons (df : DataFrame Station.Row),
    (∀ nr, nr ∈ df →
       status_listed (Station.Status nr.2) ∧
       platform_listed icons (Station.PlatformType nr.2)) →
    ∃ fc, stations_features icons df = Ok fc ∧
          point_per_row station_position df (features fc)) as Hstations.
  { intros icons df Hdf. destruct (stations_features_total icons df) as [fc Hfc].
    { intros nr Hnr _. by apply Hdf. }
    exists fc. split; [done|]. apply stations_features_Ok in Hfc.
    exists (visit_order station_key df). split.
    - rewrite visit_order_Permutation. apply reflexive_eq, keyed_all.
      intros nr Hnr. destruct (Hdf nr Hnr) as [(s & Hs & _) (p & Hp & _)].
      exists (p, s). by apply station_key_Some.
    - eapply Forall2_impl; [done|].
      by intros nr f (? & ? & color & platform & _ & _ & _ & _ & ->). }
  assert (∀ (py : Python) (Wedge : WedgeCtor) (df : DataFrame Radar.Row)
     (kw : gmap string value) (fc : FeatureCollection),
     data_frame2gis.parse_hfradar py Wedge df kw = Ok fc ∨
     hfradar_geojson.df2features py Wedge df kw = Ok fc →
     ∃ pts pgs,
       features fc = pts ++ pgs ∧
       point_per_row radar_position (keyed Radar.Status df) pts ∧
       Forall (λ f, geometry_type (geometry_of f) = "Polygon") pgs) as Hradar.
  { intros py Wedge df kw fc Hfc.
    change (hfradar_geojson.df2features py Wedge)
      with (data_frame2gis.parse_hfradar py Wedge) in Hfc.
    assert (data_frame2gis.parse_hfradar py Wedge df kw = Ok fc) as Hfc'
      by (by destruct Hfc).
    apply parse_hfradar_Ok in Hfc' as (pts & pgs & final & Hrun & Hfs).
    exists pts, pgs. split; [done|]. split.
    + exists (visit_order Radar.Status df).
      split; [apply visit_order_Permutation|].
      eapply Forall2_impl; [by eapply radar_run_points|].
      by intros nr f (s & color & _ & _ & ->).
    + eapply Forall_impl; [by eapply radar_run_polygons|]. by intros f [? _]. }
  split; [|split; [|split; [|split]]].
  - intros df. rewrite parse_stations_features. apply Hstations.
  - intros df. rewrite df2features_stations_features. apply Hstations.
  - done.
  - intros py Wedge df kw fc Hdf Hfc.
    destruct (Hradar py Wedge df kw fc Hfc) as (pts & pgs & Hfs & Hpts & Hpgs).
    rewrite (keyed_all Radar.Status df Hdf) in Hpts. eauto.
  - intros py Wedge df kw Hdf.
    change (hfradar_geojson.df2features py Wedge)
      with (data_frame2gis.parse_hfradar py Wedge).
    destruct (parse_hfradar_total py Wedge df kw) as [fc Hfc]; [|eauto].
    intros nr Hnr _. by apply Hdf.
Qed.

Lemma one_point_per_row_witness :
  (∃ fc, data_frame2gis.parse_stations station_frame = Ok fc ∧
         point_per_row station_position station_frame (features fc)) ∧
  (∃ fc, stations_geojson.df2features station_frame = Ok fc ∧
         point_per_row station_position station_frame (features fc)) ∧
  (∃ pts pgs,
     features radar_collection = pts ++ pgs ∧
     point_per_row radar_position radar_frame pts ∧
     Forall (λ f, geometry_type (geometry_of f) = "Polygon") pgs) ∧
  (∃ fc, data_frame2gis.parse_hfradar demo_python demo_Wedge
           [(VStr "C", radar_planned); (VStr "A", radar_good)] ∅ = Ok fc ∧
         hfradar_geojson.df2features demo_python demo_Wedge
           [(VStr "C", radar_planned); (VStr "A", radar_good)] ∅ = Ok fc).
Proof.
  destruct one_point_per_row as (Hstations & Hstations' & _ & Hradar & Htotal).
  split; [|split; [|split]].
  - apply Hstations. intros nr Hnr.
    repeat (apply elem_of_cons in Hnr as [->|Hnr]);
      [| |by apply elem_of_nil in Hnr];
      (split; eexists; (split; [done|]); [decide_now|by eexists]).
  - apply Hstations'. intros nr Hnr.
    repeat (apply elem_of_cons in Hnr as [->|Hnr]);
      [| |by apply elem_of_nil in Hnr];
      (split; eexists; (split; [done|]); [decide_now|by eexists]).
  - apply (Hradar demo_python demo_Wedge radar_frame ∅).
    + intros nr Hnr.
      repeat (apply elem_of_cons in Hnr as [->|Hnr]);
        [| | |by apply elem_of_nil in Hnr]; by eexists.
    + left. by vm_compute.
  - apply Htotal. intros nr Hnr.
    repeat (apply elem_of_cons in Hnr as [->|Hnr]);
      [| |by apply elem_of_nil in Hnr];
      (split; [eexists; split; [done|decide_now]
              |do 2 eexists; split; vm_compute; reflexivity]).
Defined.

(** ** C4 *)



(** ** C5 and C6 *)

(** C5 (amended).  Exporting a collection with target geometry "Point"
    writes exactly as many records as it has point features, and with
    target "Polygon" as many as it has polygon features: the features of the
    target type are written, in order, and no other.  Each record carries the
    name of its feature unchanged (its position when the feature has none);
    the name is neither shortened nor checked against the 80 characters of
    the field.  The writer of the stations script, which has no target, does
    the same on a collection of named points. *)
Theorem shapefile_record_counts :
  (∀ (fc : FeatureCollection) (target : string), ∃ f,
     data_frame2gis.save_shapefile fc target = Ok f ∧
     hfradar_geojson.save_shapefile fc target = Ok f ∧
     length (records f) = count_type target (features fc) ∧
     Forall2 (λ kf r,
       geometry_type (geometry_of kf.2) = target ∧
       record_geometry r = geometry_of kf.2 ∧
       record_name r = default (VInt kf.1) (properties kf.2 !! "name"))
       (of_type target (features fc)) (records f)) ∧
  (∀ fc : FeatureCollection,
     Forall (λ feature,
       geometry_type (geometry_of feature) = "Point" ∧
       is_Some (properties feature !! "name")) (features fc) →
     ∃ f,
       stations_geojson.save_shapefile fc = Ok f ∧
       length (records f) = count_type "Point" (features fc) ∧
       Forall2 (λ feature r,
         record_geometry r = geometry_of feature ∧
         properties feature !! "name" = Some (record_name r))
         (features fc) (records f)).
Proof.
  split.
  - intros fc target. eexists.
    split; [apply save_shapefile_Ok|]. split; [apply save_shapefile_Ok|].
    simpl. split; [by rewrite length_fmap, of_type_length|].
    apply Forall2_fmap_r, Forall_Forall2_diag, Forall_forall.
    by intros kf [Htype _]%list_elem_of_filter.
  - intros fc Hfc. unfold stations_geojson.save_shapefile.
    destruct (stations_save_loop (features fc)
      (fiona_open "Point" [("name", "str:80")])) as (rs & -> & Hrs);
      [done..|].
    eexists. split; [done|]. simpl. split; [|done].
    rewrite <-(Forall2_length _ _ _ Hrs). unfold count_type.
    f_equal. symmetry. apply filter_Forall_id.
    eapply Forall_impl; [done|]. by intros feature [? _].
Qed.

Lemma shapefile_record_counts_witness :
  ∃ f,
    stations_geojson.save_shapefile station_collection = Ok f ∧
    length (records f) = count_type "Point" (features station_collection) ∧
    Forall2 (λ feature r,
      record_geometry r = geometry_of feature ∧
      properties feature !! "name" = Some (record_name r))
      (features station_collection) (records f).
Proof.
  apply (proj2 shapefile_record_counts station_collection).
  repeat constructor; by eexists.
Defined.

(** C5, as stated, fails: a station whose name has 89 characters gives a
    point feature, and the record written for it carries the 89
    characters. *)
Lemma shapefile_long_name_written :
  ∃ fc f r,
    data_frame2gis.parse_stations [(VInt 0, shore_long)] = Ok fc ∧
    data_frame2gis.save_shapefile fc "Point" = Ok f ∧
    records f = [r] ∧
    record_name r = VStr (Station.Name shore_long) ∧
    String.length (Station.Name shore_long) = 89%nat ∧
    ¬ fits_str80 (record_name r).
Proof.
  do 3 eexists. split; [by vm_compute|]. split; [by vm_compute|].
  split; [done|]. split; [done|]. split; [by vm_compute|].
  vm_compute. lia.
Qed.

(** C6 (amended).  A feature of the target geometry whose properties have
    no "name" is still written, and the name of its record is the 0-based
    position of the feature in the collection; the export of the two
    scripts with a target does not fail on it. *)
Theorem missing_name_falls_back_to_index (fc : FeatureCollection)
    (target : string) (k : nat) (feature : Feature) :
  features fc !! k = Some feature →
  geometry_type (geometry_of feature) = target →
  properties feature !! "name" = None →
  ∃ f,
    data_frame2gis.save_shapefile fc target = Ok f ∧
    hfradar_geojson.save_shapefile fc target = Ok f ∧
    mkRecord (geometry_of feature) (VInt (Z.of_nat k)) ∈ records f.
Proof.
  intros Hk Htype Hname. eexists.
  split; [apply save_shapefile_Ok|]. split; [apply save_shapefile_Ok|].
  simpl. apply list_elem_of_fmap. exists (Z.of_nat k, feature). split.
  - unfold record_of. simpl. by rewrite Hname.
  - apply list_elem_of_filter. split; [done|]. by apply elem_of_enumerate.
Qed.

Lemma missing_name_falls_back_to_index_witness :
  ∃ f,
    data_frame2gis.save_shapefile
      (mkFeatureCollection (features station_collection ++ [nameless_point]))
      "Point" = Ok f ∧
    hfradar_geojson.save_shapefile
      (mkFeatureCollection (features station_collection ++ [nameless_point]))
      "Point" = Ok f ∧
    mkRecord (geometry_of nameless_point) (VInt 2) ∈ records f.
Proof.
  apply (missing_name_falls_back_to_index
    (mkFeatureCollection (features station_collection ++ [nameless_point]))
    "Point" 2 nameless_point); by vm_compute.
Defined.

(** C6, as stated, fails on two counts: a feature without a name whose
    geometry is not of the target type is not written (the polygons of the
    radar collection, when points are exported), and the writer of the
    stations script looks the name up without a fallback. *)
Lemma missing_name_not_always_written :
  (∃ f, data_frame2gis.save_shapefile
          (mkFeatureCollection [nameless_polygon]) "Point" = Ok f ∧
        records f = []) ∧
  stations_geojson.save_shapefile (mkFeatureCollection [nameless_point])
    = Raise KeyError.
Proof. split; [eexists; split|]; by vm_compute. Qed.

(** ** C8 *)

(** C8.  A collection returned by a radar builder lists the point features
    first and the polygon features after them; a collection returned by a
    station builder holds point features only.  Points and polygons each
    follow the visiting order of the rows, which takes the groups in the
    sorted order of their keys (the status for radars; the platform type,
    then the status, for stations) and, within a group, the rows in the
    order of the table: the visiting order is a rearrangement of the rows of
    the table that have a key, sorted by key, that keeps the rows of each
    key in their original order. *)
Theorem features_follow_group_order :
  (∀ (py : Python) (Wedge : WedgeCtor) (df : DataFrame Radar.Row)
     (kw : gmap string value) (fc : FeatureCollection),
     data_frame2gis.parse_hfradar py Wedge df kw = Ok fc ∨
     hfradar_geojson.df2features py Wedge df kw = Ok fc →
     ∃ pts pgs,
       features fc = pts ++ pgs ∧
       Forall2 (λ nr f,
         geometry_of f = Point (radar_position nr.2) ∧
         properties f !! "name" = Some nr.1)
         (visit_order Radar.Status df) pts ∧
       Forall2 (λ nr f,
         geometry_type (geometry_of f) = "Polygon" ∧
         ∀ p, data_frame2gis.wedge py Wedge nr.2 = Ok (Some p) →
              data_frame2gis.mpl_patch2geo_polygon p = Ok (geometry_of f))
         (visit_order Radar.Status df) pgs) ∧
  (∀ (df : DataFrame Station.Row) (fc : FeatureCollection),
     data_frame2gis.parse_stations df = Ok fc ∨
     stations_geojson.df2features df = Ok fc →
     Forall2 (λ nr f,
       geometry_of f = Point (station_position nr.2) ∧
       properties f !! "name" = Some (VStr (Station.Name nr.2)))
       (visit_order station_key df) (features fc)) ∧
  (∀ df : DataFrame Radar.Row,
     visit_order Radar.Status df ≡ₚ keyed Radar.Status df ∧
     StronglySorted
       (λ x y, ∃ sx sy,
          Radar.Status x.2 = Some sx ∧ Radar.Status y.2 = Some sy ∧
          String.leb sx sy = true)
       (visit_order Radar.Status df) ∧
     ∀ k, filter (λ nr, Radar.Status nr.2 = Some k)
            (visit_order Radar.Status df)
          = filter (λ nr, Radar.Status nr.2 = Some k) df) ∧
  (∀ df : DataFrame Station.Row,
     visit_order station_key df ≡ₚ keyed station_key df ∧
     StronglySorted
       (λ x y, ∃ px sx py sy,
          Station.PlatformType x.2 = Some px ∧ Station.Status x.2 = Some sx ∧
          Station.PlatformType y.2 = Some py ∧ Station.Status y.2 = Some sy ∧
          if decide (px = py) then String.leb sx sy = true
          else String.leb px py = true)
       (visit_order station_key df) ∧
     ∀ k, filter (λ nr, station_key nr.2 = Some k) (visit_order station_key df)
          = filter (λ nr, station_key nr.2 = Some k) df).
Proof.
  split; [|split; [|split]].
  - intros py Wedge df kw fc Hfc.
    change (hfradar_geojson.df2features py Wedge)
      with (data_frame2gis.parse_hfradar py Wedge) in Hfc.
    assert (data_frame2gis.parse_hfradar py Wedge df kw = Ok fc) as Hfc'
      by (by destruct Hfc).
    apply parse_hfradar_Ok in Hfc' as (pts & pgs & final & Hrun & Hfs).
    exists pts, pgs. split; [done|]. split.
    + eapply Forall2_impl; [by eapply radar_run_points|].
      by intros nr f (s & color & _ & _ & ->).
    + by eapply radar_run_polygons_rows.
  - intros df fc Hfc.
    assert (∃ icons, stations_features icons df = Ok fc) as [icons Hfc'].
    { destruct Hfc; eauto. }
    apply stations_features_Ok in Hfc'.
    eapply Forall2_impl; [done|].
    by intros nr f (? & ? & color & platform & _ & _ & _ & _ & ->).
  - intros df. split; [apply visit_order_Permutation|].
    split; [exact (visit_order_sorted Radar.Status df)|].
    apply visit_order_stable.
  - intros df. split; [apply visit_order_Permutation|].
    split; [|apply visit_order_stable].
    eapply StronglySorted_mono; [|apply (visit_order_sorted station_key)].
    intros x y ([px sx] & [py sy] & [? ?]%station_key_Some
                & [? ?]%station_key_Some & Hle).
    exists px, sx, py, sy. do 4 (split; [done|]).
    unfold key_le in Hle. simpl in Hle. unfold pair_leb in Hle. simpl in Hle.
    by case_decide.
Qed.

Lemma features_follow_group_order_witness :
  (∃ pts pgs,
     features radar_collection = pts ++ pgs ∧
     Forall2 (λ nr f,
       geometry_of f = Point (radar_position nr.2) ∧
       properties f !! "name" = Some nr.1)
       (visit_order Radar.Status radar_frame) pts ∧
     Forall2 (λ nr f,
       geometry_type (geometry_of f) = "Polygon" ∧
       ∀ p, data_frame2gis.wedge demo_python demo_Wedge nr.2 = Ok (Some p) →
            data_frame2gis.mpl_patch2geo_polygon p = Ok (geometry_of f))
       (visit_order Radar.Status radar_frame) pgs) ∧
  Forall2 (λ nr f,
    geometry_of f = Point (station_position nr.2) ∧
    properties f !! "name" = Some (VStr (Station.Name nr.2)))
    (visit_order station_key station_frame) (features station_collection).
Proof.
  destruct features_follow_group_order as (Hradar & Hstations & _).
  split.
  - apply (Hradar demo_python demo_Wedge radar_frame ∅). left. by vm_compute.
  - apply Hstations. left. by vm_compute.
Defined.

(** ** C9 *)

(** C9.  The icon of a point feature is the base URL followed by
    "{platform-icon}-{color}.png".  The platform icon is buoy, circ, tri,
    shore_station or hfradar for the platform types Fixed Surface Buoy,
    Fixed Bottom Station, Fixed Bottom Mount Mooring, Fixed Coastal Station
    and HFRadar (which the icon table of [stations_geojson.py] lacks), and
    "hfradar" for every radar.  The colour is orange, green, yellow or yellow
    for the statuses Planned, Operational, Permitting and Construction: it
    is never the status itself.  An operational fixed surface buoy has an
    icon ending in "buoy-green.png". *)
Theorem icon_uses_mapped_color :
  (∀ df : DataFrame Station.Row,
     (∀ nr, nr ∈ df →
        status_listed (Station.Status nr.2) ∧
        ∃ platformtype platform,
          Station.PlatformType nr.2 = Some platformtype ∧
          (platformtype, platform) ∈ platform_icon_pairs) →
     ∃ fc, data_frame2gis.parse_stations df = Ok fc ∧
       Forall2 (λ nr f, ∃ platformtype status platform color,
         Station.PlatformType nr.2 = Some platformtype ∧
         Station.Status nr.2 = Some status ∧
         (platformtype, platform) ∈ platform_icon_pairs ∧
         (status, color) ∈ status_color_pairs ∧
         color ≠ status ∧
         properties f !! "icon"
           = Some (VStr (url +:+ platform +:+ "-" +:+ color +:+ ".png")))
         (visit_order station_key df) (features fc)) ∧
  (∀ df : DataFrame Station.Row,
     (∀ nr, nr ∈ df →
        status_listed (Station.Status nr.2) ∧
        ∃ platformtype platform,
          Station.PlatformType nr.2 = Some platformtype ∧
          (platformtype, platform) ∈ platform_icon_pairs ∧
          platformtype ≠ "HFRadar") →
     ∃ fc, stations_geojson.df2features df = Ok fc ∧
       Forall2 (λ nr f, ∃ platformtype status platform color,
         Station.PlatformType nr.2 = Some platformtype ∧
         Station.Status nr.2 = Some status ∧
         (platformtype, platform) ∈ platform_icon_pairs ∧
         (status, color) ∈ status_color_pairs ∧
         color ≠ status ∧
         properties f !! "icon"
           = Some (VStr (url +:+ platform +:+ "-" +:+ color +:+ ".png")))
         (visit_order station_key df) (features fc)) ∧
  (∀ (py : Python) (Wedge : WedgeCtor) (df : DataFrame Radar.Row)
     (kw : gmap string value) (fc : FeatureCollection),
     data_frame2gis.parse_hfradar py Wedge df kw = Ok fc ∨
     hfradar_geojson.df2features py Wedge df kw = Ok fc →
     Forall2 (λ nr f, ∃ status color,
       Radar.Status nr.2 = Some status ∧
       (status, color) ∈ status_color_pairs ∧
       color ≠ status ∧
       properties f !! "icon"
         = Some (VStr (url +:+ "hfradar" +:+ "-" +:+ color +:+ ".png")))
       (visit_order Radar.Status df)
       (take (length (keyed Radar.Status df)) (features fc))) ∧
  (∀ (label : value) (row : Station.Row),
     Station.PlatformType row = Some "Fixed Surface Buoy" →
     Station.Status row = Some "Operational" →
     ∃ f, data_frame2gis.parse_stations [(label, row)]
            = Ok (mkFeatureCollection [f]) ∧
          stations_geojson.df2features [(label, row)]
            = Ok (mkFeatureCollection [f]) ∧
          properties f !! "icon" = Some (VStr (url +:+ "buoy-green.png"))).
Proof.
  assert (∀ (icons : gmap string string) (Q : string → Prop)
            (df : DataFrame Station.Row),
    (∀ p i, icons !! p = Some i ↔ (p, i) ∈ platform_icon_pairs ∧ Q p) →
    (∀ nr, nr ∈ df →
       status_listed (Station.Status nr.2) ∧
       ∃ platformtype platform,
         Station.PlatformType nr.2 = Some platformtype ∧
         (platformtype, platform) ∈ platform_icon_pairs ∧ Q platformtype) →
    ∃ fc, stations_features icons df = Ok fc ∧
      Forall2 (λ nr f, ∃ platformtype status platform color,
        Station.PlatformType nr.2 = Some platformtype ∧
        Station.Status nr.2 = Some status ∧
        (platformtype, platform) ∈ platform_icon_pairs ∧
        (status, color) ∈ status_color_pairs ∧
        color ≠ status ∧
        properties f !! "icon"
          = Some (VStr (url +:+ platform +:+ "-" +:+ color +:+ ".png")))
        (visit_order station_key df) (features fc)) as Hstations.
  { intros icons Q df Hicons Hdf.
    destruct (stations_features_total icons df) as [fc Hfc].
    { intros nr Hnr _. destruct (Hdf nr Hnr) as [Hs (p & i & Hp & Hi)].
      split; [done|]. exists p. split; [done|]. exists i. by apply Hicons. }
    exists fc. split; [done|]. apply stations_features_Ok in Hfc.
    eapply Forall2_impl; [done|].
    intros nr f (p & s & color & platform & Hp & Hs & Hcolor & Hicon & ->).
    apply status_colors_pairs in Hcolor. apply Hicons in Hicon as [Hicon _].
    exists p, s, platform, color. do 4 (split; [done|]).
    split; [by eapply status_color_not_label|done]. }
  split; [|split; [|split]].
  - intros df Hdf. rewrite parse_stations_features.
    apply (Hstations _ (λ _, True)).
    + intros p i. rewrite platforms_icons_pairs. tauto.
    + intros nr Hnr. destruct (Hdf nr Hnr) as [Hs (p & i & Hp & Hi)].
      split; [done|]. by exists p, i.
  - intros df Hdf. rewrite df2features_stations_features.
    apply (Hstations _ (λ p, p ≠ "HFRadar")); [|done].
    intros p i. apply stations_platforms_icons_pairs.
  - intros py Wedge df kw fc Hfc.
    change (hfradar_geojson.df2features py Wedge)
      with (data_frame2gis.parse_hfradar py Wedge) in Hfc.
    assert (data_frame2gis.parse_hfradar py Wedge df kw = Ok fc) as Hfc'
      by (by destruct Hfc).
    apply parse_hfradar_Ok in Hfc' as (pts & pgs & final & Hrun & ->).
    destruct (radar_run_visit_length _ _ _ _ _ _ _ _ Hrun) as [Hpts _].
    rewrite take_app_length' by done.
    eapply Forall2_impl; [by eapply radar_run_points|].
    intros nr f (s & color & Hs & Hcolor%status_colors_pairs & ->).
    exists s, color. do 2 (split; [done|]).
    split; [by eapply status_color_not_label|done].
  - intros label row Hplatform Hstatus.
    exists (station_point "green" "buoy" (label, row)).
    assert (station_key row = Some ("Fixed Surface Buoy", "Operational"))
      as Hkey by (by apply station_key_Some).
    assert (visit_order station_key [(label, row)] = [(label, row)]) as Hrows.
    { apply Permutation_singleton_r. rewrite visit_order_Permutation.
      unfold keyed. rewrite filter_cons_True; [done|]. simpl. by rewrite Hkey. }
    split; [|split; [|done]].
    + rewrite parse_stations_features, stations_features_steps, Hrows. simpl.
      unfold station_step. simpl. by rewrite Hkey.
    + rewrite df2features_stations_features, stations_features_steps, Hrows.
      simpl. unfold station_step. simpl. by rewrite Hkey.
Qed.

Lemma icon_uses_mapped_color_witness :
  (∃ fc, data_frame2gis.parse_stations station_frame = Ok fc ∧
     Forall2 (λ nr f, ∃ platformtype status platform color,
       Station.PlatformType nr.2 = Some platformtype ∧
       Station.Status nr.2 = Some status ∧
       (platformtype, platform) ∈ platform_icon_pairs ∧
       (status, color) ∈ status_color_pairs ∧
       color ≠ status ∧
       properties f !! "icon"
         = Some (VStr (url +:+ platform +:+ "-" +:+ color +:+ ".png")))
       (visit_order station_key station_frame) (features fc)) ∧
  (∃ fc, stations_geojson.df2features station_frame = Ok fc ∧
     Forall2 (λ nr f, ∃ platformtype status platform color,
       Station.PlatformType nr.2 = Some platformtype ∧
       Station.Status nr.2 = Some status ∧
       (platformtype, platform) ∈ platform_icon_pairs ∧
       (status, color) ∈ status_color_pairs ∧
       color ≠ status ∧
       properties f !! "icon"
         = Some (VStr (url +:+ platform +:+ "-" +:+ color +:+ ".png")))
       (visit_order station_key station_frame) (features fc)) ∧
  Forall2 (λ nr f, ∃ status color,
    Radar.Status nr.2 = Some status ∧
    (status, color) ∈ status_color_pairs ∧
    color ≠ status ∧
    properties f !! "icon"
      = Some (VStr (url +:+ "hfradar" +:+ "-" +:+ color +:+ ".png")))
    (visit_order Radar.Status radar_frame)
    (take (length (keyed Radar.Status radar_frame))
       (features radar_collection)) ∧
  (∃ f, data_frame2gis.parse_stations [(VInt 1, buoy1)]
          = Ok (mkFeatureCollection [f]) ∧
        stations_geojson.df2features [(VInt 1, buoy1)]
          = Ok (mkFeatureCollection [f]) ∧
        properties f !! "icon" = Some (VStr (url +:+ "buoy-green.png"))).
Proof.
  destruct icon_uses_mapped_color as (Hstations & Hstations' & Hradar & Hbuoy).
  split; [|split; [|split]].
  - apply Hstations. intros nr Hnr.
    repeat (apply elem_of_cons in Hnr as [->|Hnr]);
      [| |by apply elem_of_nil in Hnr];
      (split; [eexists; split; [done|decide_now]
              |do 2 eexists; split; [done|];
               repeat first [apply list_elem_of_here
                            |apply list_elem_of_further]]).
  - apply Hstations'. intros nr Hnr.
    repeat (apply elem_of_cons in Hnr as [->|Hnr]);
      [| |by apply elem_of_nil in Hnr];
      (split; [eexists; split; [done|decide_now]
              |do 2 eexists; split; [done|]; split; [|done];
               repeat first [apply list_elem_of_here
                            |apply list_elem_of_further]]).
  - apply (Hradar demo_python demo_Wedge radar_frame ∅). left. by vm_compute.
  - by apply Hbuoy.
Defined.

(** ** C10 *)



(** * Further properties *)

(** X1.  Every polygon feature of a collection returned by a radar builder
    carries the five styling defaults, stroke "#aeccae", stroke_width 1,
    stroke_opacity 0.5, fill "#deffde" and fill_opacity 0.25, each replaced
    by the caller's keyword argument of the same name when there is one,
    together with the caller's other keyword arguments, and nothing else. *)
Theorem polygon_styling_overridable (py : Python) (Wedge : WedgeCtor)
    (df : DataFrame Radar.Row) (kw : gmap string value)
    (fc : FeatureCollection) :
  data_frame2gis.parse_hfradar py Wedge df kw = Ok fc ∨
  hfradar_geojson.df2features py Wedge df kw = Ok fc →
  ∃ pts pgs,
    features fc = pts ++ pgs ∧
    length pts = length (keyed Radar.Status df) ∧
    Forall (λ f,
      dom (properties f) = dom kw ∪ styling_keys ∧
      (∀ key v, kw !! key = Some v → properties f !! key = Some v) ∧
      (kw !! "stroke" = None →
       properties f !! "stroke" = Some (VStr "#aeccae")) ∧
      (kw !! "stroke_width" = None →
       properties f !! "stroke_width" = Some (VInt 1)) ∧
      (kw !! "stroke_opacity" = None →
       properties f !! "stroke_opacity" = Some (VFloat 0.5)) ∧
      (kw !! "fill" = None →
       properties f !! "fill" = Some (VStr "#deffde")) ∧
      (kw !! "fill_opacity" = None →
       properties f !! "fill_opacity" = Some (VFloat 0.25))) pgs.
Proof.
  intros Hfc.
  change (hfradar_geojson.df2features py Wedge)
    with (data_frame2gis.parse_hfradar py Wedge) in Hfc.
  assert (data_frame2gis.parse_hfradar py Wedge df kw = Ok fc) as Hfc'
    by (by destruct Hfc).
  apply parse_hfradar_Ok in Hfc' as (pts & pgs & final & Hrun & Hfs).
  destruct (radar_run_visit_length _ _ _ _ _ _ _ _ Hrun) as [Hpts _].
  exists pts, pgs. do 2 (split; [done|]).
  eapply Forall_impl; [by eapply radar_run_polygons|].
  intros f [_ ->]. unfold polygon_defaults. split; [|split].
  - rewrite dom_union_L. by f_equal.
  - intros key v Hkey. by apply lookup_union_Some_l.
  - repeat split; intros Hkey; by rewrite lookup_union_r.
Qed.

Lemma polygon_styling_overridable_witness :
  ∃ pts pgs,
    features radar_collection = pts ++ pgs ∧
    length pts = length (keyed Radar.Status radar_frame) ∧
    Forall (λ f,
      dom (properties f) = dom (∅ : gmap string value) ∪ styling_keys ∧
      (∀ key v, (∅ : gmap string value) !! key = Some v →
                properties f !! key = Some v) ∧
      ((∅ : gmap string value) !! "stroke" = None →
       properties f !! "stroke" = Some (VStr "#aeccae")) ∧
      ((∅ : gmap string value) !! "stroke_width" = None →
       properties f !! "stroke_width" = Some (VInt 1)) ∧
      ((∅ : gmap string value) !! "stroke_opacity" = None →
       properties f !! "stroke_opacity" = Some (VFloat 0.5)) ∧
      ((∅ : gmap string value) !! "fill" = None →
       properties f !! "fill" = Some (VStr "#deffde")) ∧
      ((∅ : gmap string value) !! "fill_opacity" = None →
       properties f !! "fill_opacity" = Some (VFloat 0.25))) pgs.
Proof.
  apply (polygon_styling_overridable demo_python demo_Wedge radar_frame ∅
    radar_collection).
  left. by vm_compute.
Defined.

(** The station builders depend on the icon table through the platform
    types of the rows only. *)
Lemma stations_features_icons (icons icons' : gmap string string)
    (df : DataFrame Station.Row) :
  (∀ nr platformtype, nr ∈ df →
     Station.PlatformType nr.2 = Some platformtype →
     icons !! platformtype = icons' !! platformtype) →
  stations_features icons df = stations_features icons' df.
Proof.
  intros Hdf. rewrite !stations_features_steps. f_equal.
  apply for_each_ext. intros fs nr [Hnr _]%elem_of_visit_order.
  unfold station_step, getitem.
  destruct (station_key nr.2) as [[pt st]|] eqn:Hkey; [|done].
  apply station_key_Some in Hkey as [Hpt _]. by rewrite (Hdf nr pt Hnr Hpt).
Qed.

(** X2.  The scripts agree: the radar builder and the shapefile writer of
    [hfradar_geojson.py] are those of [data_frame2gis.py], and the station
    builder of [stations_geojson.py] is that of [data_frame2gis.py] on every
    table without a row of platform type "HFRadar", the one key that the icon
    table of [data_frame2gis.py] has besides. *)
Theorem scripts_agree :
  (∀ (py : Python) (Wedge : WedgeCtor) (df : DataFrame Radar.Row)
     (kw : gmap string value),
     hfradar_geojson.df2features py Wedge df kw
     = data_frame2gis.parse_hfradar py Wedge df kw) ∧
  (∀ (fc : FeatureCollection) (target : string),
     hfradar_geojson.save_shapefile fc target
     = data_frame2gis.save_shapefile fc target) ∧
  (∀ df : DataFrame Station.Row,
     (∀ nr, nr ∈ df → Station.PlatformType nr.2 ≠ Some "HFRadar") →
     stations_geojson.df2features df = data_frame2gis.parse_stations df).
Proof.
  split; [done|]. split; [done|].
  intros df Hdf.
  rewrite df2features_stations_features, parse_stations_features.
  apply stations_features_icons. intros nr pt Hnr Hpt.
  unfold data_frame2gis.platforms_icons, stations_geojson.platforms_icons.
  rewrite !lookup_insert. repeat case_decide; try done.
  destruct (Hdf nr Hnr). congruence.
Qed.

Lemma scripts_agree_witness :
  stations_geojson.df2features station_frame
  = data_frame2gis.parse_stations station_frame.
Proof.
  apply (proj2 (proj2 scripts_agree)). intros nr Hnr.
  repeat (apply elem_of_cons in Hnr as [->|Hnr]);
    [| |by apply elem_of_nil in Hnr]; done.
Defined.

(** * Further facts about the radar builders *)

Lemma list_getitem_penultimate_Ok {A} (l : list A) (v : A) :
  list_getitem l (-2) = Ok v ↔
  (2 ≤ length l)%nat ∧ l !! (length l - 2)%nat = Some v.
Proof.
  unfold list_getitem. destruct (decide (-2 < 0)); [|lia].
  destruct (decide (0 ≤ Z.of_nat (length l) + -2 < Z.of_nat (length l)))
    as [Hlen|Hlen].
  - replace (Z.to_nat (Z.of_nat (length l) + -2)) with (length l - 2)%nat
      by lia.
    destruct (l !! (length l - 2)%nat) as [x|] eqn:Hx.
    + split; [intros [= ->]; split; [lia|done]|by intros [_ [= ->]]].
    + split; [done|]. by intros [_ ?].
  - split; [done|]. intros [? _]. lia.
Qed.

Lemma list_getitem_penultimate_short {A} (l : list A) :
  (length l < 2)%nat → list_getitem l (-2) = Raise IndexError.
Proof.
  intros Hlen. unfold list_getitem. destruct (decide (-2 < 0)); [|lia].
  rewrite decide_False by lia. done.
Qed.

Lemma list_getitem_penultimate_is_Ok {A} (l : list A) :
  (2 ≤ length l)%nat → ∃ v, list_getitem l (-2) = Ok v.
Proof.
  intros Hlen. destruct (lookup_lt_is_Some_2 l (length l - 2)%nat) as [v Hv];
    [lia|].
  exists v. by apply list_getitem_penultimate_Ok.
Qed.

Lemma wedge_drawn_built (py : Python) (Wedge : WedgeCtor) (row : Radar.Row) :
  wedge_drawn py Wedge row ↔ wedge_built py Wedge row.
Proof.
  split.
  - intros (p & Hp & Hlen).
    destruct (list_getitem_penultimate_is_Ok _ Hlen) as [v Hv]. by exists p, v.
  - intros (p & v & Hp & Hv). exists p. split; [done|].
    by apply list_getitem_penultimate_Ok in Hv as [? _].
Qed.

(** A loop that raises does so on one of its elements, after the elements
    before it went well. *)
Lemma for_each_Raise {A S} (body : S → A → result S) (s : S) (l : list A)
    (e : exn) :
  for_each body s l = Raise e →
  ∃ l1 x l2 s', l = l1 ++ x :: l2 ∧
    for_each body s l1 = Ok s' ∧ body s' x = Raise e.
Proof.
  revert s. induction l as [|x l IH]; intros s; simpl; [done|].
  destruct (body s x) as [s1|e1] eqn:Hx; simpl.
  - intros (l1 & y & l2 & s' & -> & Hl1 & Hy)%IH.
    exists (x :: l1), y, l2, s'. simpl. by rewrite Hx.
  - intros [= ->]. by exists [], x, l, s.
Qed.

Section radar_outcomes.
Context (py : Python) (Wedge : WedgeCtor).

Local Abbreviation wedge := (data_frame2gis.wedge py Wedge).

(** The only [ValueError] that [wedge] lets out is that of [int]: the one
    of the constructor is caught. *)
Lemma wedge_ValueError (row : Radar.Row) :
  wedge row = Raise ValueError ↔
  int_cell py (Radar.MHz row) = Raise ValueError.
Proof.
  unfold data_frame2gis.wedge.
  destruct (int_cell py (Radar.MHz row)) as [band|e]; simpl.
  - unfold getitem. destruct (ranges !! band) as [km|]; simpl; [|done].
    by destruct (Wedge _ _ _ _) as [p|[]].
  - split; by intros [= ->].
Qed.

Lemma hfradar_step_ValueError (defaults : gmap string value)
    (st : radar_locals) (nr : value * Radar.Row) :
  hfradar_step py Wedge defaults st nr = Raise ValueError →
  is_Some (Radar.Status nr.2) ∧
  int_cell py (Radar.MHz nr.2) = Raise ValueError.
Proof.
  destruct nr as [name row]. unfold hfradar_step, getitem. simpl.
  destruct (Radar.Status row) as [status|]; [|done].
  destruct (status_colors !! status) as [color|]; simpl; [|done].
  unfold data_frame2gis.hfradar_row. intros Hstep. split; [by eexists|].
  apply wedge_ValueError.
  destruct (wedge row) as [[p|]|e]; simpl in Hstep; [| |congruence].
  - unfold data_frame2gis.mpl_patch2geo_polygon, list_getitem in Hstep.
    repeat case_decide; simpl in Hstep; try done.
    by destruct (path_vertices p !! _).
  - by destruct (polygon st).
Qed.

(** The runs that exist: every row passes, and the first one is drawn when
    no polygon is held at the start. *)
Lemma radar_run_exists (defaults : gmap string value) (prev : option geometry)
    (rows : list (value * Radar.Row)) :
  (∃ pts pgs final, radar_run py Wedge defaults prev rows pts pgs final) ↔
  Forall (row_passes py Wedge) rows ∧
  (prev = None → ∀ nr, head rows = Some nr → wedge_drawn py Wedge nr.2).
Proof.
  split.
  - intros (pts & pgs & final & Hrun).
    induction Hrun as [|prev nr rows s color p g pts pgs final Hs Hcolor Hp Hg
                        _ IH
                       |g nr rows s color pts pgs final Hs Hcolor Hnone _ IH].
    + split; [constructor|]. by intros _ nr.
    + assert (wedge_drawn py Wedge nr.2) as Hdrawn.
      { exists p. split; [done|].
        apply mpl_patch2geo_polygon_Ok in Hg as (v & Hv & _).
        by apply list_getitem_penultimate_Ok in Hv as [? _]. }
      split.
      * constructor; [|apply IH]. split; [|by right].
        exists s. split; [done|]. apply status_colors_statuses. eauto.
      * by intros _ ? [= <-].
    + split; [|done]. constructor; [|apply IH]. split; [|by left].
      exists s. split; [done|]. apply status_colors_statuses. eauto.
  - intros [Hrows Hfirst]. revert prev Hfirst.
    induction Hrows
      as [|nr rows [(s & Hs & [color Hcolor]%status_colors_statuses) Hw] _ IH];
      intros prev Hfirst.
    + exists [], [], prev. constructor.
    + assert (wedge_drawn py Wedge nr.2 ∨
              ∃ g, prev = Some g ∧ wedge nr.2 = Ok None) as [Hdrawn|Hheld].
      { destruct Hw as [Hnone|?]; [|by left].
        destruct prev as [g|]; [right; eauto|]. left. by apply Hfirst. }
      * destruct Hdrawn as (p & Hp & Hlen).
        destruct (list_getitem_penultimate_is_Ok _ Hlen) as [v Hv].
        destruct (IH (Some (Polygon [path_vertices p ++ [v]])))
          as (pts & pgs & final & Hrun); [done|].
        do 3 eexists. eapply run_built; [done..| |done].
        apply mpl_patch2geo_polygon_Ok. eauto.
      * destruct Hheld as (g & -> & Hnone).
        destruct (IH (Some g)) as (pts & pgs & final & Hrun); [done|].
        do 3 eexists. by eapply run_repeat.
Qed.
End radar_outcomes.

(** * Further properties of the builders *)

(** X3.  A radar builder returns a collection exactly when every row that
    has a status has a listed one and a wedge that is either refused (the
    constructor raised [ValueError]) or built on a path of at least two
    vertices, and the first row visited has its wedge built.  The rows
    whose status cell is blank do not count. *)
Theorem parse_hfradar_returns_iff (py : Python) (Wedge : WedgeCtor)
    (df : DataFrame Radar.Row) (kw : gmap string value) :
  ((∃ fc, data_frame2gis.parse_hfradar py Wedge df kw = Ok fc) ↔
   (∀ nr, nr ∈ df → is_Some (Radar.Status nr.2) → row_passes py Wedge nr) ∧
   (∀ nr, head (visit_order Radar.Status df) = Some nr →
      wedge_drawn py Wedge nr.2)) ∧
  ((∃ fc, hfradar_geojson.df2features py Wedge df kw = Ok fc) ↔
   (∀ nr, nr ∈ df → is_Some (Radar.Status nr.2) → row_passes py Wedge nr) ∧
   (∀ nr, head (visit_order Radar.Status df) = Some nr →
      wedge_drawn py Wedge nr.2)).
Proof.
  change (hfradar_geojson.df2features py Wedge)
    with (data_frame2gis.parse_hfradar py Wedge).
  assert ((∃ fc, data_frame2gis.parse_hfradar py Wedge df kw = Ok fc) ↔
    (∀ nr, nr ∈ df → is_Some (Radar.Status nr.2) → row_passes py Wedge nr) ∧
    (∀ nr, head (visit_order Radar.Status df) = Some nr →
       wedge_drawn py Wedge nr.2)) as Hiff; [|done].
  trans (∃ pts pgs final, radar_run py Wedge (polygon_defaults kw) None
           (visit_order Radar.Status df) pts pgs final).
  - split.
    + intros [fc (pts & pgs & final & Hrun & _)%parse_hfradar_Ok]. eauto.
    + intros (pts & pgs & final & Hrun).
      exists (mkFeatureCollection (pts ++ pgs)). apply parse_hfradar_Ok. eauto.
  - rewrite radar_run_exists, Forall_forall.
    setoid_rewrite elem_of_visit_order. split.
    + intros [Hrows Hfirst]. split; [|by apply Hfirst].
      intros nr ? ?. by apply Hrows.
    + intros [Hrows Hfirst]. split; [|done]. intros nr [? ?]. by apply Hrows.
Qed.

Lemma parse_hfradar_returns_iff_witness :
  ∃ fc, data_frame2gis.parse_hfradar demo_python demo_Wedge
          (radar_frame ++ [(VStr "E", radar_blank)]) ∅ = Ok fc.
Proof.
  apply (proj1 (parse_hfradar_returns_iff demo_python demo_Wedge
    (radar_frame ++ [(VStr "E", radar_blank)]) ∅)). split.
  - intros nr Hnr Hkey.
    repeat (apply elem_of_cons in Hnr as [->|Hnr]);
      [| | | |by apply elem_of_nil in Hnr].
    + split; [eexists; split; [done|decide_now]|].
      right. eexists. split; [by vm_compute|]. simpl. lia.
    + split; [eexists; split; [done|decide_now]|].
      right. eexists. split; [by vm_compute|]. simpl. lia.
    + split; [eexists; split; [done|decide_now]|].
      left. by vm_compute.
    + by destruct Hkey.
  - intros nr Hnr. vm_compute in Hnr. injection Hnr as <-.
    eexists. split; [by vm_compute|]. simpl. lia.
Defined.

(** X4.  When the first row visited has a listed status and a refused wedge,
    the radar builders raise [UnboundLocalError], whatever the other rows
    are: the polygon feature is appended before any polygon was built. *)
Theorem first_wedge_refused_unbound (py : Python) (Wedge : WedgeCtor)
    (df : DataFrame Radar.Row) (kw : gmap string value)
    (nr : value * Radar.Row) :
  head (visit_order Radar.Status df) = Some nr →
  status_listed (Radar.Status nr.2) →
  data_frame2gis.wedge py Wedge nr.2 = Ok None →
  data_frame2gis.parse_hfradar py Wedge df kw = Raise UnboundLocalError ∧
  hfradar_geojson.df2features py Wedge df kw = Raise UnboundLocalError.
Proof.
  intros Hhead Hlisted Hnone.
  change (hfradar_geojson.df2features py Wedge)
    with (data_frame2gis.parse_hfradar py Wedge).
  by rewrite (first_refused_raises py Wedge df kw nr).
Qed.

Lemma first_wedge_refused_unbound_witness :
  data_frame2gis.parse_hfradar demo_python demo_Wedge
    [(VStr "C", radar_planned); (VStr "B", radar_nan); (VStr "A", radar_good)]
    ∅ = Raise UnboundLocalError ∧
  hfradar_geojson.df2features demo_python demo_Wedge
    [(VStr "C", radar_planned); (VStr "B", radar_nan); (VStr "A", radar_good)]
    ∅ = Raise UnboundLocalError.
Proof.
  apply (first_wedge_refused_unbound demo_python demo_Wedge _ ∅
    (VStr "B", radar_nan)).
  - by vm_compute.
  - eexists. split; [done|]. decide_now.
  - by vm_compute.
Defined.

(** X5.  The [ValueError] of the constructor of wedges never leaves a radar
    builder.  A builder that raises [ValueError] does so on a row that has a
    status and a band cell that [int] refuses, a blank cell or a text that
    is no integer: [int(radar["MHz"])] stands before the [try]. *)
Theorem hfradar_ValueError_from_int (py : Python) (Wedge : WedgeCtor)
    (df : DataFrame Radar.Row) (kw : gmap string value) :
  data_frame2gis.parse_hfradar py Wedge df kw = Raise ValueError ∨
  hfradar_geojson.df2features py Wedge df kw = Raise ValueError →
  ∃ nr, nr ∈ df ∧ is_Some (Radar.Status nr.2) ∧
    int_cell py (Radar.MHz nr.2) = Raise ValueError ∧
    data_frame2gis.wedge py Wedge nr.2 = Raise ValueError ∧
    match Radar.MHz nr.2 with
    | VInt _ => False
    | VFloat x => PrimFloat.is_nan x = true
    | VStr s => int_str py s = None
    end.
Proof.
  change (hfradar_geojson.df2features py Wedge)
    with (data_frame2gis.parse_hfradar py Wedge).
  intros Hraise.
  assert (data_frame2gis.parse_hfradar py Wedge df kw = Raise ValueError)
    as Hraise' by (by destruct Hraise).
  rewrite parse_hfradar_steps in Hraise'.
  destruct (for_each _ _ _) as [st|e] eqn:Hloop; simpl in Hraise'; [done|].
  injection Hraise' as ->.
  apply for_each_Raise in Hloop as (l1 & nr & l2 & st & Hrows & _ & Hstep).
  apply hfradar_step_ValueError in Hstep as [Hkey Hint].
  exists nr. split; [|split; [done|split; [done|split]]].
  - apply (elem_of_visit_order Radar.Status). rewrite Hrows.
    apply elem_of_app. right. by left.
  - by apply wedge_ValueError.
  - destruct (Radar.MHz nr.2) as [s|n|x]; simpl in Hint.
    + by destruct (int_str py s).
    + done.
    + unfold int_float, Prim2SF in Hint.
      destruct (PrimFloat.is_nan x); [done|].
      destruct (PrimFloat.is_zero x); [done|].
      destruct (PrimFloat.is_infinity x); [done|].
      destruct (Z.frexp x) as [r e].
      destruct (shr_fexp _ _ _ _ _) as [shr e'].
      by destruct (shr_m shr).
Qed.

Lemma hfradar_ValueError_from_int_witness :
  ∃ nr, nr ∈ [(VStr "A", radar_good); (VStr "F", radar_blank_band)] ∧
    is_Some (Radar.Status nr.2) ∧
    int_cell demo_python (Radar.MHz nr.2) = Raise ValueError ∧
    data_frame2gis.wedge demo_python demo_Wedge nr.2 = Raise ValueError ∧
    match Radar.MHz nr.2 with
    | VInt _ => False
    | VFloat x => PrimFloat.is_nan x = true
    | VStr s => int_str demo_python s = None
    end.
Proof.
  apply (hfradar_ValueError_from_int demo_python demo_Wedge
    [(VStr "A", radar_good); (VStr "F", radar_blank_band)] ∅).
  left. by vm_compute.
Defined.

(** X6.  A station builder raises nothing but [KeyError], and raises only
    when some row that has both key cells has a status or a platform type
    that is not listed. *)
Theorem parse_stations_only_KeyError :
  (∀ (df : DataFrame Station.Row) (e : exn),
     data_frame2gis.parse_stations df = Raise e →
     e = KeyError ∧
     ∃ nr platformtype status, nr ∈ df ∧
       Station.PlatformType nr.2 = Some platformtype ∧
       Station.Status nr.2 = Some status ∧
       (status ∉ statuses ∨
        data_frame2gis.platforms_icons !! platformtype = None)) ∧
  (∀ (df : DataFrame Station.Row) (e : exn),
     stations_geojson.df2features df = Raise e →
     e = KeyError ∧
     ∃ nr platformtype status, nr ∈ df ∧
       Station.PlatformType nr.2 = Some platformtype ∧
       Station.Status nr.2 = Some status ∧
       (status ∉ statuses ∨
        stations_geojson.platforms_icons !! platformtype = None)).
Proof.
  assert (∀ icons (df : DataFrame Station.Row) (e : exn),
    stations_features icons df = Raise e →
    e = KeyError ∧
    ∃ nr platformtype status, nr ∈ df ∧
      Station.PlatformType nr.2 = Some platformtype ∧
      Station.Status nr.2 = Some status ∧
      (status ∉ statuses ∨ icons !! platformtype = None)) as Hstations.
  { intros icons df e. rewrite stations_features_steps.
    destruct (for_each _ _ _) as [fs|e'] eqn:Hloop; simpl; [done|].
    intros [= ->].
    apply for_each_Raise in Hloop as (l1 & nr & l2 & fs & Hrows & _ & Hstep).
    assert (nr ∈ df) as Hnr.
    { apply (elem_of_visit_order station_key). rewrite Hrows.
      apply elem_of_app. right. by left. }
    unfold station_step, getitem in Hstep.
    destruct (station_key nr.2) as [[pt st]|] eqn:Hkey; [|done].
    apply station_key_Some in Hkey as [Hpt Hst].
    destruct (status_colors !! st) as [color|] eqn:Hcolor; simpl in Hstep.
    - destruct (icons !! pt) as [platform|] eqn:Hicon; simpl in Hstep.
      + by destruct nr.
      + injection Hstep as <-. split; [done|]. exists nr, pt, st. eauto.
    - injection Hstep as <-. split; [done|]. exists nr, pt, st.
      do 3 (split; [done|]). left.
      rewrite <-status_colors_statuses, Hcolor. by intros [? ?]. }
  split.
  - intros df e. rewrite parse_stations_features. apply Hstations.
  - intros df e. rewrite df2features_stations_features. apply Hstations.
Qed.

Lemma parse_stations_only_KeyError_witness :
  KeyError = KeyError ∧
  ∃ nr platformtype status, nr ∈ [(VInt 0, buoy1); (VInt 1, glider)] ∧
    Station.PlatformType nr.2 = Some platformtype ∧
    Station.Status nr.2 = Some status ∧
    (status ∉ statuses ∨
     data_frame2gis.platforms_icons !! platformtype = None).
Proof.
  apply (proj1 parse_stations_only_KeyError
    [(VInt 0, buoy1); (VInt 1, glider)] KeyError).
  by vm_compute.
Defined.

(** The loops under two sets of styling keywords run alike, and raise the
    same exceptions. *)
Lemma hfradar_loop_styling (py : Python) (Wedge : WedgeCtor)
    (d d' : gmap string value)
    (rows : list (value * Radar.Row)) (st st' : radar_locals) :
  same_but_styling st st' →
  match for_each (hfradar_step py Wedge d) st rows,
        for_each (hfradar_step py Wedge d') st' rows with
  | Ok a, Ok a' => same_but_styling a a'
  | Raise e, Raise e' => e = e'
  | _, _ => False
  end.
Proof.
  revert st st'. induction rows as [|[name row] rows IH]; intros st st' Hst;
    simpl; [done|].
  assert (match hfradar_step py Wedge d st (name, row),
                hfradar_step py Wedge d' st' (name, row) with
          | Ok a, Ok a' => same_but_styling a a'
          | Raise e, Raise e' => e = e'
          | _, _ => False
          end) as Hstep.
  { pose proof Hst as (Hpolygon & Hpoints & Hpolygons).
    unfold hfradar_step. simpl.
    destruct (Radar.Status row) as [status|]; [|done].
    destruct (getitem status_colors status) as [color|e]; simpl; [|done].
    unfold data_frame2gis.hfradar_row.
    destruct (data_frame2gis.wedge py Wedge row) as [[p|]|e]; simpl; [| |done].
    - destruct (data_frame2gis.mpl_patch2geo_polygon p) as [g|e]; simpl;
        [|done].
      split; [done|]. simpl. split; [by rewrite Hpoints|].
      by rewrite !fmap_app, Hpolygons.
    - rewrite <-Hpolygon. destruct (polygon st) as [g|]; [|done].
      split; [done|]. simpl. split; [by rewrite Hpoints|].
      by rewrite !fmap_app, Hpolygons. }
  destruct (hfradar_step py Wedge d st (name, row)) as [a|e],
           (hfradar_step py Wedge d' st' (name, row)) as [a'|e']; simpl;
    try done.
  by apply IH.
Qed.

(** X7.  The styling keywords given to a radar builder change the
    properties of the polygon features and nothing else: with other keywords
    the builder raises the same exception or returns a collection with the
    same point features and the same geometries. *)
Theorem styling_keywords_frame (py : Python) (Wedge : WedgeCtor)
    (df : DataFrame Radar.Row) (kw kw' : gmap string value) :
  (∀ fc, data_frame2gis.parse_hfradar py Wedge df kw = Ok fc →
     ∃ fc', data_frame2gis.parse_hfradar py Wedge df kw' = Ok fc' ∧
       hfradar_geojson.df2features py Wedge df kw' = Ok fc' ∧
       geometries fc' = geometries fc ∧
       take (length (keyed Radar.Status df)) (features fc')
       = take (length (keyed Radar.Status df)) (features fc)) ∧
  (∀ e, data_frame2gis.parse_hfradar py Wedge df kw = Raise e →
     data_frame2gis.parse_hfradar py Wedge df kw' = Raise e ∧
     hfradar_geojson.df2features py Wedge df kw' = Raise e).
Proof.
  change (hfradar_geojson.df2features py Wedge)
    with (data_frame2gis.parse_hfradar py Wedge).
  pose proof (hfradar_loop_styling py Wedge (polygon_defaults kw)
    (polygon_defaults kw') (visit_order Radar.Status df)
    (mkLocals None [] []) (mkLocals None [] [])) as Hloop.
  pose proof (visit_order_Forall_keyed Radar.Status df) as Hkeyed.
  rewrite !parse_hfradar_steps. split.
  - intros fc Hfc. apply bind_Ok in Hfc as (st & Hst & [= <-]).
    pose proof (proj1 (radar_loop_run _ _ _ _ _ _ Hkeyed) Hst)
      as (pts & pgs & Hrun & Hpts & Hpgs).
    apply radar_run_visit_length in Hrun as [Hlen _]. simpl in Hpts.
    rewrite Hst in Hloop.
    destruct (for_each _ _ _) as [st'|e']; [|by destruct Hloop].
    destruct Hloop as (_ & Hpoints & Hpolygons); [done|].
    eexists. do 2 (split; [done|]). unfold geometries. simpl.
    rewrite !fmap_app, Hpolygons, <-Hpoints. split; [done|].
    by rewrite !take_app_length' by congruence.
  - intros e He.
    destruct (for_each (hfradar_step py Wedge (polygon_defaults kw)) _ _)
      as [st|e0]; simpl in He; [done|]. injection He as ->.
    destruct (for_each _ _ _) as [st'|e']; [by destruct Hloop|].
    rewrite <-Hloop; done.
Qed.

Lemma styling_keywords_frame_witness :
  ∃ fc', data_frame2gis.parse_hfradar demo_python demo_Wedge radar_frame
           (<["stroke" := VStr "#000000"]> ∅) = Ok fc' ∧
    hfradar_geojson.df2features demo_python demo_Wedge radar_frame
           (<["stroke" := VStr "#000000"]> ∅) = Ok fc' ∧
    geometries fc' = geometries radar_collection ∧
    take (length (keyed Radar.Status radar_frame)) (features fc')
    = take (length (keyed Radar.Status radar_frame))
        (features radar_collection).
Proof.
  apply (proj1 (styling_keywords_frame demo_python demo_Wedge radar_frame ∅
    (<["stroke" := VStr "#000000"]> ∅)) radar_collection).
  by vm_compute.
Defined.

(** X8.  The property bag of a point feature has the keys icon, name and
    popupContent and no other.  For a radar the name is the index label of
    the row and the popup is "{DisplayTitle} ({MHz} MHz)" with the [MHz]
    cell printed as it is read: the decimal writing of a whole number, the
    text of a float, a text unchanged.  For a station the name is the Name
    cell and the popup the LocationDescription cell. *)
Theorem point_feature_properties :
  (∀ (py : Python) (Wedge : WedgeCtor) (df : DataFrame Radar.Row)
     (kw : gmap string value) (fc : FeatureCollection),
     data_frame2gis.parse_hfradar py Wedge df kw = Ok fc ∨
     hfradar_geojson.df2features py Wedge df kw = Ok fc →
     Forall2 (λ nr f,
       dom (properties f) = point_keys ∧
       properties f !! "name" = Some nr.1 ∧
       properties f !! "popupContent" = Some (VStr (radar_popup py nr.2)))
       (visit_order Radar.Status df)
       (take (length (keyed Radar.Status df)) (features fc))) ∧
  (∀ (df : DataFrame Station.Row) (fc : FeatureCollection),
     data_frame2gis.parse_stations df = Ok fc ∨
     stations_geojson.df2features df = Ok fc →
     Forall2 (λ nr f,
       dom (properties f) = point_keys ∧
       properties f !! "name" = Some (VStr (Station.Name nr.2)) ∧
       properties f !! "popupContent"
         = Some (VStr (Station.LocationDescription nr.2)))
       (visit_order station_key df) (features fc)).
Proof.
  split.
  - intros py Wedge df kw fc Hfc.
    change (hfradar_geojson.df2features py Wedge)
      with (data_frame2gis.parse_hfradar py Wedge) in Hfc.
    assert (data_frame2gis.parse_hfradar py Wedge df kw = Ok fc) as Hfc'
      by (by destruct Hfc).
    apply parse_hfradar_Ok in Hfc' as (pts & pgs & final & Hrun & ->).
    destruct (radar_run_visit_length _ _ _ _ _ _ _ _ Hrun) as [Hpts _].
    rewrite take_app_length' by done.
    eapply Forall2_impl; [by eapply radar_run_points|].
    intros nr f (s & color & _ & _ & ->). simpl. split.
    + rewrite !dom_insert_L, dom_empty_L. unfold point_keys. set_solver.
    + split; [done|]. unfold radar_popup. by destruct (Radar.MHz nr.2).
  - intros df fc Hfc.
    assert (∃ icons, stations_features icons df = Ok fc) as [icons Hfc'].
    { destruct Hfc; eauto. }
    apply stations_features_Ok in Hfc'.
    eapply Forall2_impl; [done|].
    intros nr f (? & ? & color & platform & _ & _ & _ & _ & ->). simpl.
    split; [|done].
    rewrite !dom_insert_L, dom_empty_L. unfold point_keys. set_solver.
Qed.

Lemma point_feature_properties_witness :
  Forall2 (λ nr f,
    dom (properties f) = point_keys ∧
    properties f !! "name" = Some nr.1 ∧
    properties f !! "popupContent"
      = Some (VStr (radar_popup demo_python nr.2)))
    (visit_order Radar.Status radar_frame)
    (take (length (keyed Radar.Status radar_frame))
       (features radar_collection)) ∧
  Forall2 (λ nr f,
    dom (properties f) = point_keys ∧
    properties f !! "name" = Some (VStr (Station.Name nr.2)) ∧
    properties f !! "popupContent"
      = Some (VStr (Station.LocationDescription nr.2)))
    (visit_order station_key station_frame) (features station_collection).
Proof.
  destruct point_feature_properties as [Hradar Hstations]. split.
  - apply (Hradar demo_python demo_Wedge radar_frame ∅). left. by vm_compute.
  - apply Hstations. left. by vm_compute.
Defined.

(** X9.  [mpl_patch2geo_polygon] raises [IndexError] on a path of fewer than
    two vertices.  On a longer path of n vertices it returns a polygon of one
    ring of n + 1 positions: the n vertices, then the vertex at place
    n - 2. *)
Theorem mpl_patch2geo_polygon_bounds (p : Patch) :
  ((length (path_vertices p) < 2)%nat →
   data_frame2gis.mpl_patch2geo_polygon p = Raise IndexError ∧
   hfradar_geojson.mpl_patch2geo_polygon p = Raise IndexError) ∧
  ((2 ≤ length (path_vertices p))%nat →
   ∃ v ring,
     path_vertices p !! (length (path_vertices p) - 2)%nat = Some v ∧
     ring = path_vertices p ++ [v] ∧
     length ring = S (length (path_vertices p)) ∧
     data_frame2gis.mpl_patch2geo_polygon p = Ok (Polygon [ring]) ∧
     hfradar_geojson.mpl_patch2geo_polygon p = Ok (Polygon [ring])).
Proof.
  change hfradar_geojson.mpl_patch2geo_polygon
    with data_frame2gis.mpl_patch2geo_polygon.
  unfold data_frame2gis.mpl_patch2geo_polygon. split.
  - intros Hlen. by rewrite list_getitem_penultimate_short.
  - intros Hlen.
    destruct (list_getitem_penultimate_is_Ok _ Hlen) as [v Hv].
    exists v, (path_vertices p ++ [v]).
    split; [by apply list_getitem_penultimate_Ok in Hv as [_ ?]|].
    split; [done|]. split; [rewrite length_app; simpl; lia|].
    by rewrite Hv.
Qed.

Lemma mpl_patch2geo_polygon_bounds_witness :
  (data_frame2gis.mpl_patch2geo_polygon (mkPatch [[0%float; 0%float]])
   = Raise IndexError ∧
   hfradar_geojson.mpl_patch2geo_polygon (mkPatch [[0%float; 0%float]])
   = Raise IndexError) ∧
  ∃ v ring,
    path_vertices demo_patch !! (length (path_vertices demo_patch) - 2)%nat
      = Some v ∧
    ring = path_vertices demo_patch ++ [v] ∧
    length ring = S (length (path_vertices demo_patch)) ∧
    data_frame2gis.mpl_patch2geo_polygon demo_patch = Ok (Polygon [ring]) ∧
    hfradar_geojson.mpl_patch2geo_polygon demo_patch = Ok (Polygon [ring]).
Proof.
  split.
  - apply (proj1 (mpl_patch2geo_polygon_bounds (mkPatch [[0%float; 0%float]]))).
    simpl. lia.
  - apply (proj2 (mpl_patch2geo_polygon_bounds demo_patch)).
    vm_compute. lia.
Defined.

(** * Further facts about the shapefile writers *)

Lemma filter_imap_all {A} (P : A → Prop) `{∀ x, Decision (P x)}
    (f : nat → A → Z * A) (l : list A) :
  (∀ k x, (f k x).2 = x) → Forall P l →
  filter (λ kx : Z * A, P kx.2) (imap f l) = imap f l.
Proof.
  intros Hf Hl. revert f Hf.
  induction Hl as [|x l Hx _ IH]; intros f Hf; simpl; [done|].
  rewrite filter_cons_True by (by rewrite Hf).
  f_equal. apply IH. intros k y. apply Hf.
Qed.

Lemma filter_imap_none {A} (P : A → Prop) `{∀ x, Decision (P x)}
    (f : nat → A → Z * A) (l : list A) :
  (∀ k x, (f k x).2 = x) → Forall (λ x, ¬ P x) l →
  filter (λ kx : Z * A, P kx.2) (imap f l) = [].
Proof.
  intros Hf Hl. revert f Hf.
  induction Hl as [|x l Hx _ IH]; intros f Hf; simpl; [done|].
  rewrite filter_cons_False by (by rewrite Hf).
  apply IH. intros k y. apply Hf.
Qed.

Lemma of_type_points_polygons (pts pgs : list Feature) :
  Forall (λ f, geometry_type (geometry_of f) = "Point") pts →
  Forall (λ f, geometry_type (geometry_of f) = "Polygon") pgs →
  of_type "Point" (pts ++ pgs) = imap (λ k f, (Z.of_nat k, f)) pts ∧
  of_type "Polygon" (pts ++ pgs)
  = imap (λ k f, (Z.of_nat (length pts + k), f)) pgs.
Proof.
  intros Hpts Hpgs.
  assert (Forall (λ f, ¬ geometry_type (geometry_of f) = "Polygon") pts)
    as Hpts' by (eapply Forall_impl; [done|]; by intros f ->).
  assert (Forall (λ f, ¬ geometry_type (geometry_of f) = "Point") pgs)
    as Hpgs' by (eapply Forall_impl; [done|]; by intros f ->).
  pose proof (filter_imap_all
    (λ f, geometry_type (geometry_of f) = "Point")
    (λ k f, (Z.of_nat k, f)) pts (λ _ _, eq_refl) Hpts) as H1.
  pose proof (filter_imap_none
    (λ f, geometry_type (geometry_of f) = "Point")
    (λ k f, (Z.of_nat (length pts + k), f)) pgs (λ _ _, eq_refl) Hpgs')
    as H2.
  pose proof (filter_imap_none
    (λ f, geometry_type (geometry_of f) = "Polygon")
    (λ k f, (Z.of_nat k, f)) pts (λ _ _, eq_refl) Hpts') as H3.
  pose proof (filter_imap_all
    (λ f, geometry_type (geometry_of f) = "Polygon")
    (λ k f, (Z.of_nat (length pts + k), f)) pgs (λ _ _, eq_refl) Hpgs) as H4.
  unfold of_type, enumerate. rewrite imap_app, !filter_app.
  simpl in H1, H2, H3, H4. split.
  - etrans; [exact (f_equal2 app H1 H2)|]. apply app_nil_r.
  - exact (f_equal2 app H3 H4).
Qed.

(** The export of a collection of points followed by polygons: the points,
    then the polygons, each with its position in the whole collection. *)
Lemma export_points_then_polygons (pts pgs : list Feature) :
  Forall (λ f, geometry_type (geometry_of f) = "Point") pts →
  Forall (λ f, geometry_type (geometry_of f) = "Polygon") pgs →
  data_frame2gis.save_shapefile (mkFeatureCollection (pts ++ pgs)) "Point"
  = Ok (mkCollection "Point" [("name", "str:80")]
          (imap (λ k f, record_of (Z.of_nat k) f) pts)) ∧
  data_frame2gis.save_shapefile (mkFeatureCollection (pts ++ pgs)) "Polygon"
  = Ok (mkCollection "Polygon" [("name", "str:80")]
          (imap (λ k f, record_of (Z.of_nat (length pts + k)) f) pgs)).
Proof.
  intros Hpts Hpgs. rewrite !save_shapefile_Ok.
  destruct (of_type_points_polygons pts pgs Hpts Hpgs) as [Hpoint Hpolygon].
  cbn [features]. rewrite Hpoint, Hpolygon. by rewrite !fmap_imap.
Qed.

(** The writer of the stations script on points: the records of the named
    points, up to the first point without a name. *)
Lemma stations_save_named (fs : list Feature) (f : Collection) :
  schema_geometry f = "Point" →
  Forall (λ feature, geometry_type (geometry_of feature) = "Point" ∧
                     is_Some (properties feature !! "name")) fs →
  for_each stations_geojson.save_feature f fs =
  Ok (mkCollection (schema_geometry f) (schema_properties f)
        (records f ++ imap (λ k feature, record_of (Z.of_nat k) feature) fs)).
Proof.
  intros Hf Hfs. revert f Hf.
  assert (∀ (g : nat → Z) (f : Collection),
    schema_geometry f = "Point" →
    for_each stations_geojson.save_feature f fs =
    Ok (mkCollection (schema_geometry f) (schema_properties f)
          (records f ++ imap (λ k feature, record_of (g k) feature) fs)))
    as Hgen; [|intros f; apply Hgen].
  induction Hfs as [|feature fs [Htype [name Hname]] _ IH]; intros g f Hf;
    simpl.
  - rewrite app_nil_r. by destruct f.
  - rewrite (stations_save_feature_Ok f feature name) by congruence. simpl.
    rewrite (IH (g ∘ S)) by done. simpl. rewrite <-app_assoc. simpl.
    unfold record_of at 2. by rewrite Hname.
Qed.

Lemma stations_save_nameless (fs : list Feature) (f : Collection) :
  schema_geometry f = "Point" →
  Forall (λ feature, geometry_type (geometry_of feature) = "Point") fs →
  Exists (λ feature, properties feature !! "name" = None) fs →
  for_each stations_geojson.save_feature f fs = Raise KeyError.
Proof.
  intros Hf Hfs Hnameless. revert f Hf.
  induction Hfs as [|feature fs Htype _ IH]; intros f Hf; simpl.
  - by apply Exists_nil in Hnameless.
  - destruct (properties feature !! "name") as [name|] eqn:Hname.
    + rewrite (stations_save_feature_Ok f feature name) by congruence. simpl.
      apply IH; [|done].
      apply Exists_cons in Hnameless as [?|?]; [congruence|done].
    + assert (stations_geojson.save_feature f feature = Raise KeyError) as ->;
        [|done].
      unfold stations_geojson.save_feature.
      by rewrite (getitem_None _ _ Hname).
Qed.

Lemma Forall2_imap_r {A B C} (R : A → B → Prop) (R' : A → C → Prop)
    (g : nat → B → C) (l : list A) (k : list B) :
  (∀ i x y, R x y → R' x (g i y)) →
  Forall2 R l k → Forall2 R' l (imap g k).
Proof.
  intros Hg Hlk. revert g Hg.
  induction Hlk as [|x y l k Hxy _ IH]; intros g Hg; simpl; constructor.
  - by apply Hg.
  - apply IH. intros i. apply Hg.
Qed.

Lemma polygon_defaults_name (kw : gmap string value) :
  polygon_defaults kw !! "name" = kw !! "name".
Proof.
  unfold polygon_defaults. rewrite lookup_union.
  by destruct (kw !! "name").
Qed.

(** X10.  The shapefile of the stations: for the collection that a station
    builder returns, the export of the points writes one record for each
    row visited, in visiting order, with the point of the row and its Name
    cell as name; the writer of [stations_geojson.py] writes the same file
    without raising; and an export of polygons writes no record. *)
Theorem stations_export (df : DataFrame Station.Row) (fc : FeatureCollection) :
  data_frame2gis.parse_stations df = Ok fc ∨
  stations_geojson.df2features df = Ok fc →
  ∃ f,
    data_frame2gis.save_shapefile fc "Point" = Ok f ∧
    stations_geojson.save_shapefile fc = Ok f ∧
    Forall2 (λ nr r,
      record_geometry r = Point (station_position nr.2) ∧
      record_name r = VStr (Station.Name nr.2))
      (visit_order station_key df) (records f) ∧
    data_frame2gis.save_shapefile fc "Polygon"
    = Ok (fiona_open "Polygon" [("name", "str:80")]).
Proof.
  intros Hfc.
  assert (∃ icons, stations_features icons df = Ok fc) as [icons Hfc'].
  { destruct Hfc as [Hfc|Hfc]; eauto. }
  apply stations_features_Ok in Hfc'. destruct fc as [fs]. simpl in Hfc'.
  assert (Forall (λ feature,
    geometry_type (geometry_of feature) = "Point" ∧
    is_Some (properties feature !! "name")) fs) as Hfs.
  { clear Hfc.
    induction Hfc' as [|nr f rows fs (? & ? & c & p & _ & _ & _ & _ & ->) _ IH];
      constructor; [|done]. split; [done|]. by eexists. }
  destruct (export_points_then_polygons fs []) as [Hpoint Hpolygon].
  { eapply Forall_impl; [done|]. by intros f [? _]. }
  { constructor. }
  rewrite app_nil_r in Hpoint, Hpolygon.
  eexists. split; [done|]. split; [|split; [|done]].
  - unfold stations_geojson.save_shapefile. simpl.
    by rewrite stations_save_named.
  - simpl. eapply Forall2_imap_r; [|done].
    by intros i nr f (? & ? & c & p & _ & _ & _ & _ & ->).
Qed.

Lemma stations_export_witness :
  ∃ f,
    data_frame2gis.save_shapefile station_collection "Point" = Ok f ∧
    stations_geojson.save_shapefile station_collection = Ok f ∧
    Forall2 (λ nr r,
      record_geometry r = Point (station_position nr.2) ∧
      record_name r = VStr (Station.Name nr.2))
      (visit_order station_key station_frame) (records f) ∧
    data_frame2gis.save_shapefile station_collection "Polygon"
    = Ok (fiona_open "Polygon" [("name", "str:80")]).
Proof.
  apply (stations_export station_frame station_collection).
  left. by vm_compute.
Defined.

(** X11.  The shapefiles of the radars: for the collection that a radar
    builder returns on a table with n rows that have a status, the export of
    the points writes one record for each such row, in visiting order, with
    the point of the row and its index label as name; the export of the
    polygons writes n records, the one at place i with the geometry of the
    feature at place n + i and, as name, the caller's "name" keyword when
    there is one and the position n + i otherwise. *)
Theorem hfradar_exports (py : Python) (Wedge : WedgeCtor)
    (df : DataFrame Radar.Row) (kw : gmap string value)
    (fc : FeatureCollection) :
  data_frame2gis.parse_hfradar py Wedge df kw = Ok fc ∨
  hfradar_geojson.df2features py Wedge df kw = Ok fc →
  ∃ fpoint fpolygon,
    data_frame2gis.save_shapefile fc "Point" = Ok fpoint ∧
    hfradar_geojson.save_shapefile fc "Point" = Ok fpoint ∧
    data_frame2gis.save_shapefile fc "Polygon" = Ok fpolygon ∧
    hfradar_geojson.save_shapefile fc "Polygon" = Ok fpolygon ∧
    Forall2 (λ nr r,
      record_geometry r = Point (radar_position nr.2) ∧
      record_name r = nr.1)
      (visit_order Radar.Status df) (records fpoint) ∧
    length (records fpolygon) = length (keyed Radar.Status df) ∧
    ∀ i r, records fpolygon !! i = Some r →
      geometry_of <$> features fc !! (length (keyed Radar.Status df) + i)%nat
        = Some (record_geometry r) ∧
      record_name r
        = default (VInt (Z.of_nat (length (keyed Radar.Status df) + i)))
            (kw !! "name").
Proof.
  intros Hfc.
  change (hfradar_geojson.df2features py Wedge)
    with (data_frame2gis.parse_hfradar py Wedge) in Hfc.
  change hfradar_geojson.save_shapefile with data_frame2gis.save_shapefile.
  assert (data_frame2gis.parse_hfradar py Wedge df kw = Ok fc) as Hfc'
    by (by destruct Hfc).
  apply parse_hfradar_Ok in Hfc' as (pts & pgs & final & Hrun & Hfs).
  destruct fc as [fs]. simpl in Hfs. subst fs.
  destruct (radar_run_visit_length _ _ _ _ _ _ _ _ Hrun) as [Hpts Hpgs].
  set (n := length (keyed Radar.Status df)) in *.
  pose proof (radar_run_polygons _ _ _ _ _ _ _ _ Hrun) as Hpolygons.
  destruct (export_points_then_polygons pts pgs) as [-> ->].
  { by eapply radar_run_points_type. }
  { eapply Forall_impl; [by apply Hpolygons|]. by intros f [? _]. }
  do 2 eexists. do 4 (split; [done|]). simpl. split; [|split].
  - eapply Forall2_imap_r; [|by eapply radar_run_points].
    by intros i nr f (s & color & _ & _ & ->).
  - by rewrite length_imap.
  - intros i r. rewrite list_lookup_imap, lookup_app_r by lia.
    replace (n + i - length pts)%nat with i by lia.
    destruct (pgs !! i) as [f|] eqn:Hf; simpl; [|done].
    intros [= <-]. split; [done|]. simpl. rewrite Hpts.
    assert (properties f = polygon_defaults kw) as ->.
    { assert (Forall (λ f, geometry_type (geometry_of f) = "Polygon" ∧
                           properties f = polygon_defaults kw) pgs) as Hall
        by (by apply Hpolygons).
      rewrite Forall_forall in Hall.
      by apply (Hall f), list_elem_of_lookup_2 with i. }
    by rewrite polygon_defaults_name.
Qed.

Lemma hfradar_exports_witness :
  ∃ fpoint fpolygon,
    data_frame2gis.save_shapefile radar_collection "Point" = Ok fpoint ∧
    hfradar_geojson.save_shapefile radar_collection "Point" = Ok fpoint ∧
    data_frame2gis.save_shapefile radar_collection "Polygon" = Ok fpolygon ∧
    hfradar_geojson.save_shapefile radar_collection "Polygon" = Ok fpolygon ∧
    Forall2 (λ nr r,
      record_geometry r = Point (radar_position nr.2) ∧
      record_name r = nr.1)
      (visit_order Radar.Status radar_frame) (records fpoint) ∧
    length (records fpolygon) = length (keyed Radar.Status radar_frame) ∧
    ∀ i r, records fpolygon !! i = Some r →
      geometry_of <$> features radar_collection
        !! (length (keyed Radar.Status radar_frame) + i)%nat
        = Some (record_geometry r) ∧
      record_name r
        = default
            (VInt (Z.of_nat (length (keyed Radar.Status radar_frame) + i)))
            ((∅ : gmap string value) !! "name").
Proof.
  apply (hfradar_exports demo_python demo_Wedge radar_frame ∅
    radar_collection).
  left. by vm_compute.
Defined.

(** X12.  The writer of [stations_geojson.py] on a collection of points:
    when every point has a name it writes the file that the writer with a
    target writes for "Point"; when some point has none it raises
    [KeyError]. *)
Theorem stations_writer_on_points (fc : FeatureCollection) :
  Forall (λ f, geometry_type (geometry_of f) = "Point") (features fc) →
  (Forall (λ f, is_Some (properties f !! "name")) (features fc) →
   stations_geojson.save_shapefile fc
   = data_frame2gis.save_shapefile fc "Point") ∧
  (Exists (λ f, properties f !! "name" = None) (features fc) →
   stations_geojson.save_shapefile fc = Raise KeyError).
Proof.
  intros Hpoints. destruct fc as [fs]. simpl in *. split.
  - intros Hnamed.
    destruct (export_points_then_polygons fs []) as [Hpoint _];
      [done|constructor|].
    rewrite app_nil_r in Hpoint. rewrite Hpoint.
    unfold stations_geojson.save_shapefile. simpl.
    rewrite stations_save_named; [done..|].
    apply Forall_and. by split.
  - intros Hnameless. unfold stations_geojson.save_shapefile. simpl.
    by apply stations_save_nameless.
Qed.

Lemma stations_writer_on_points_witness :
  (stations_geojson.save_shapefile station_collection
   = data_frame2gis.save_shapefile station_collection "Point") ∧
  stations_geojson.save_shapefile
    (mkFeatureCollection (features station_collection ++ [nameless_point]))
  = Raise KeyError.
Proof.
  split.
  - apply (stations_writer_on_points station_collection).
    + repeat constructor.
    + repeat constructor; by eexists.
  - apply (stations_writer_on_points
      (mkFeatureCollection (features station_collection ++ [nameless_point]))).
    + repeat constructor.
    + apply Exists_exists. exists nameless_point. split; [|done].
      apply elem_of_app. right. by left.
Defined.

(** X13.  A builder returns the empty collection exactly on the tables
    none of whose rows has a key: the empty table, and the tables whose rows
    all have a blank key cell. *)
Theorem empty_collection_iff :
  (∀ (py : Python) (Wedge : WedgeCtor) (df : DataFrame Radar.Row)
     (kw : gmap string value),
     (data_frame2gis.parse_hfradar py Wedge df kw = Ok (mkFeatureCollection [])
      ↔ ∀ nr, nr ∈ df → Radar.Status nr.2 = None) ∧
     (hfradar_geojson.df2features py Wedge df kw = Ok (mkFeatureCollection [])
      ↔ ∀ nr, nr ∈ df → Radar.Status nr.2 = None)) ∧
  (∀ df : DataFrame Station.Row,
     (data_frame2gis.parse_stations df = Ok (mkFeatureCollection [])
      ↔ ∀ nr, nr ∈ df →
          Station.PlatformType nr.2 = None ∨ Station.Status nr.2 = None) ∧
     (stations_geojson.df2features df = Ok (mkFeatureCollection [])
      ↔ ∀ nr, nr ∈ df →
          Station.PlatformType nr.2 = None ∨ Station.Status nr.2 = None)).
Proof.
  assert (∀ {Row K} `{KeyOrder K} (key : Row → option K) (df : DataFrame Row),
    visit_order key df = [] ↔ ∀ nr, nr ∈ df → key nr.2 = None) as Hnil.
  { intros Row K ? ? key df. split.
    - intros Hvisit nr Hnr. destruct (key nr.2) as [k|] eqn:Hk; [|done].
      assert (nr ∈ visit_order key df) as Hin.
      { apply elem_of_visit_order. split; [done|]. by rewrite Hk. }
      rewrite Hvisit in Hin. by apply elem_of_nil in Hin.
    - intros Hdf. apply nil_length_inv. rewrite visit_order_length.
      apply length_zero_iff_nil. unfold keyed.
      induction df as [|x df IH]; [done|].
      rewrite filter_cons_False.
      + apply IH. intros nr ?. apply Hdf. by right.
      + rewrite (Hdf x) by left. by intros [? ?]. }
  split.
  - intros py Wedge df kw.
    change (hfradar_geojson.df2features py Wedge)
      with (data_frame2gis.parse_hfradar py Wedge).
    assert (data_frame2gis.parse_hfradar py Wedge df kw
            = Ok (mkFeatureCollection []) ↔
            ∀ nr, nr ∈ df → Radar.Status nr.2 = None) as Hiff; [|done].
    rewrite <-Hnil. split.
    + intros (pts & pgs & final & Hrun & Hfs)%parse_hfradar_Ok.
      apply radar_run_length in Hrun as [Hpts _]. simpl in Hfs.
      symmetry in Hfs. apply app_eq_nil in Hfs as [-> _].
      by apply nil_length_inv.
    + intros Hvisit. rewrite parse_hfradar_steps, Hvisit. done.
  - assert (∀ icons (df : DataFrame Station.Row),
      stations_features icons df = Ok (mkFeatureCollection []) ↔
      ∀ nr, nr ∈ df →
        Station.PlatformType nr.2 = None ∨ Station.Status nr.2 = None)
      as Hstations.
    { intros icons df.
      trans (visit_order station_key df = []).
      - split.
        + intros Hfc%stations_features_Ok. simpl in Hfc.
          apply Forall2_length in Hfc. by apply nil_length_inv.
        + intros Hvisit. rewrite stations_features_steps, Hvisit. done.
      - rewrite Hnil. apply forall_proper; intros nr.
        apply forall_proper; intros _. unfold station_key.
        destruct (Station.PlatformType nr.2), (Station.Status nr.2); simpl;
          split; try done; try tauto; by intros [?|?]. }
    intros df. rewrite parse_stations_features, df2features_stations_features.
    split; apply Hstations.
Qed.

Lemma empty_collection_iff_witness :
  data_frame2gis.parse_hfradar demo_python demo_Wedge
    [(VStr "E", radar_blank)] ∅ = Ok (mkFeatureCollection []) ∧
  data_frame2gis.parse_stations [(VInt 9, station_blank)]
  = Ok (mkFeatureCollection []).
Proof.
  split.
  - apply (proj1 empty_collection_iff demo_python demo_Wedge
      [(VStr "E", radar_blank)] ∅).
    intros nr Hnr. apply elem_of_cons in Hnr as [->|Hnr]; [done|].
    by apply elem_of_nil in Hnr.
  - apply (proj2 empty_collection_iff [(VInt 9, station_blank)]).
    intros nr Hnr. apply elem_of_cons in Hnr as [->|Hnr]; [by left|].
    by apply elem_of_nil in Hnr.
Defined.

Lemma status_rank_leb (s s' : string) :
  s ∈ statuses → s' ∈ statuses → String.leb s s' = true →
  (status_rank s ≤ status_rank s')%nat.
Proof.
  unfold statuses. rewrite !elem_of_cons, !elem_of_nil.
  intros [->|[->|[->|[->|[]]]]] [->|[->|[->|[->|[]]]]]; vm_compute;
    first [lia | discriminate].
Qed.

Lemma StronglySorted_mono_on {A} (P : A → Prop) (R R' : relation A)
    (l : list A) :
  (∀ x y, P x → P y → R x y → R' x y) →
  Forall P l → StronglySorted R l → StronglySorted R' l.
Proof.
  intros HR HP. induction 1 as [|x l _ IH Hx]; [constructor|].
  apply Forall_cons in HP as [HPx HPl]. constructor; [by apply IH|].
  rewrite Forall_forall in *. intros y Hy. apply HR; auto.
Qed.

Lemma Forall2_left {A B} (R : A → B → Prop) (P : A → Prop)
    (l : list A) (k : list B) :
  (∀ x y, R x y → P x) → Forall2 R l k → Forall P l.
Proof. intros HR. induction 1; constructor; eauto. Qed.

(** X14.  In a collection that a radar builder returns, the rows are visited
    by status in the order Construction, Operational, Permitting, Planned:
    so are their point features and, after them, their polygon features. *)
Theorem hfradar_status_order (py : Python) (Wedge : WedgeCtor)
    (df : DataFrame Radar.Row) (kw : gmap string value)
    (fc : FeatureCollection) :
  data_frame2gis.parse_hfradar py Wedge df kw = Ok fc ∨
  hfradar_geojson.df2features py Wedge df kw = Ok fc →
  StronglySorted
    (λ x y, ∃ sx sy,
       Radar.Status x.2 = Some sx ∧ Radar.Status y.2 = Some sy ∧
       (status_rank sx ≤ status_rank sy)%nat)
    (visit_order Radar.Status df) ∧
  ∃ pts pgs,
    features fc = pts ++ pgs ∧
    Forall2 (λ nr f, properties f !! "name" = Some nr.1)
      (visit_order Radar.Status df) pts ∧
    length pgs = length pts.
Proof.
  intros Hfc.
  change (hfradar_geojson.df2features py Wedge)
    with (data_frame2gis.parse_hfradar py Wedge) in Hfc.
  assert (data_frame2gis.parse_hfradar py Wedge df kw = Ok fc) as Hfc'
    by (by destruct Hfc).
  apply parse_hfradar_Ok in Hfc' as (pts & pgs & final & Hrun & Hfs).
  pose proof (radar_run_points _ _ _ _ _ _ _ _ Hrun) as Hpoints.
  split.
  - eapply (StronglySorted_mono_on (λ nr, status_listed (Radar.Status nr.2)));
      [|..|exact (visit_order_sorted Radar.Status df)].
    + intros x y (sx' & Hx' & Hlx) (sy' & Hy' & Hly) (sx & sy & Hx & Hy & Hle).
      exists sx, sy. do 2 (split; [done|]).
      assert (sx' = sx) as -> by congruence.
      assert (sy' = sy) as -> by congruence.
      by apply status_rank_leb.
    + eapply Forall2_left; [|done].
      intros nr f (s & color & Hs & Hc & _). exists s. split; [done|].
      apply status_colors_statuses. eauto.
  - exists pts, pgs. split; [done|]. split.
    + eapply Forall2_impl; [done|]. by intros nr f (s & color & _ & _ & ->).
    + apply radar_run_length in Hrun as [-> ->]. done.
Qed.

Lemma hfradar_status_order_witness :
  StronglySorted
    (λ x y, ∃ sx sy,
       Radar.Status x.2 = Some sx ∧ Radar.Status y.2 = Some sy ∧
       (status_rank sx ≤ status_rank sy)%nat)
    (visit_order Radar.Status radar_frame) ∧
  ∃ pts pgs,
    features radar_collection = pts ++ pgs ∧
    Forall2 (λ nr f, properties f !! "name" = Some nr.1)
      (visit_order Radar.Status radar_frame) pts ∧
    length pgs = length pts.
Proof.
  apply (hfradar_status_order demo_python demo_Wedge radar_frame ∅
    radar_collection).
  left. by vm_compute.
Defined.

(** * The station builders, row by row *)

Lemma station_feature_point_of (icons : gmap string string)
    (rows : list (value * Station.Row)) (fs : list Feature) :
  Forall2 (station_feature icons) rows fs →
  fs = station_point_of icons <$> rows.
Proof.
  induction 1
    as [|nr f rows fs (p & s & color & platform & Hp & Hs & Hc & Hi & ->) _ IH];
    [done|].
  csimpl. rewrite <-IH. f_equal. unfold station_point_of.
  rewrite Hp, Hs. simpl. by rewrite Hc, Hi.
Qed.

Lemma stations_features_listed (icons : gmap string string)
    (df : DataFrame Station.Row) (fc : FeatureCollection) :
  stations_features icons df = Ok fc →
  ∀ nr, nr ∈ df → is_Some (station_key nr.2) →
    status_listed (Station.Status nr.2) ∧
    platform_listed icons (Station.PlatformType nr.2).
Proof.
  intros Hfc%stations_features_Ok nr Hnr Hkey.
  assert (nr ∈ visit_order station_key df) as Hin
    by (by apply elem_of_visit_order).
  clear Hnr Hkey.
  induction Hfc
    as [|nr' f rows fs (p & s & color & platform & Hp & Hs & Hc & Hi & _) _ IH];
    [by apply elem_of_nil in Hin|].
  apply elem_of_cons in Hin as [->|Hin]; [|by apply IH].
  split.
  - exists s. split; [done|]. apply status_colors_statuses. eauto.
  - exists p. split; [done|]. by eexists.
Qed.

(** X17.  The station builders work row by row: when a builder returns on
    two tables, it returns on the table made of the one followed by the
    other, and the features are those of the two collections, in another
    order at most. *)
Theorem parse_stations_concat :
  (∀ (df1 df2 : DataFrame Station.Row) (fc1 fc2 : FeatureCollection),
     data_frame2gis.parse_stations df1 = Ok fc1 →
     data_frame2gis.parse_stations df2 = Ok fc2 →
     ∃ fc, data_frame2gis.parse_stations (df1 ++ df2) = Ok fc ∧
           features fc ≡ₚ features fc1 ++ features fc2) ∧
  (∀ (df1 df2 : DataFrame Station.Row) (fc1 fc2 : FeatureCollection),
     stations_geojson.df2features df1 = Ok fc1 →
     stations_geojson.df2features df2 = Ok fc2 →
     ∃ fc, stations_geojson.df2features (df1 ++ df2) = Ok fc ∧
           features fc ≡ₚ features fc1 ++ features fc2).
Proof.
  assert (∀ icons (df1 df2 : DataFrame Station.Row) fc1 fc2,
    stations_features icons df1 = Ok fc1 →
    stations_features icons df2 = Ok fc2 →
    ∃ fc, stations_features icons (df1 ++ df2) = Ok fc ∧
          features fc ≡ₚ features fc1 ++ features fc2) as Hstations.
  { intros icons df1 df2 fc1 fc2 H1 H2.
    destruct (stations_features_total icons (df1 ++ df2)) as [fc Hfc].
    { intros nr [Hnr|Hnr]%elem_of_app.
      - exact (stations_features_listed icons df1 fc1 H1 nr Hnr).
      - exact (stations_features_listed icons df2 fc2 H2 nr Hnr). }
    exists fc. split; [done|].
    apply stations_features_Ok, station_feature_point_of in H1, H2, Hfc.
    rewrite H1, H2, Hfc, <-fmap_app. apply fmap_Permutation.
    by rewrite !visit_order_Permutation, keyed_app. }
  split.
  - intros df1 df2 fc1 fc2. rewrite !parse_stations_features.
    apply Hstations.
  - intros df1 df2 fc1 fc2. rewrite !df2features_stations_features.
    apply Hstations.
Qed.

Lemma parse_stations_concat_witness :
  ∃ fc, data_frame2gis.parse_stations (station_frame ++ [(VInt 2, shore_long)])
        = Ok fc ∧
        features fc ≡ₚ features station_collection ++
          [station_point "green" "shore_station" (VInt 2, shore_long)].
Proof.
  apply (proj1 parse_stations_concat station_frame [(VInt 2, shore_long)]
    station_collection
    (mkFeatureCollection
       [station_point "green" "shore_station" (VInt 2, shore_long)]));
    by vm_compute.
Defined.
